(** * RS_GraphicView: viewport transform, view history and layered drawing

    A shallow embedding of [librecad/src/lib/gui/rs_graphicview.cpp].

    Conventions of the embedding:
    - a C++ [double] is a real number ([R]): the arithmetic is exact, there
      is no rounding, no infinity and no NaN; a literal is the double that
      it denotes ([lit_1e_6]); where the rounding decides a property the
      function is also given on binary64 numbers ([toGuiX_binary64],
      [toGuiY_binary64]);
    - a C++ [int] is an integer ([Z]); signed overflow of the int
      arithmetic is undefined in C++ and is outside the model;
    - the conversion [(int) d] of a double truncates towards zero
      ([Rtrunc]) and is undefined in C++ when the truncated value is not
      an [int]: [int_cast] is the conversion with its range, used by
      [zoomInX], [zoomInY], [zoomOutX], [zoomOutY] and [zoomWindow];
      [centerOffsetX] and [centerOffsetY] are total and convert with
      [Rtrunc], and what is proved of the offsets they store assumes that
      [int_cast] is defined on the doubles they convert
      ([centerOffsetX_double], [centerOffsetY_double]);
    - a call the C++ standard leaves undefined (an index outside a
      [std::vector], a dereferenced null pointer) makes the embedded
      function return [None];
    - [QDateTime] values are milliseconds on a time line ([Z]); each call of
      [QDateTime::currentDateTime()] is an explicit argument;
    - the virtual hooks that the host widget implements
      ([adjustOffsetControls], [adjustZoomControls], [redraw],
      [updateGridStatusWidget]) and the debug printing do not touch the
      members modelled here and are left out;
    - the painter is the log of the calls made on it. *)

From Stdlib Require Import Reals Lra Lia ZArith String Floats.
From stdpp Require Import base decidable option list.

Open Scope Z_scope.
Open Scope R_scope.

(** ** Numbers *)

#[global] Instance Rlt_rel_dec : RelDecision Rlt := Rlt_dec.
#[global] Instance Rle_rel_dec : RelDecision Rle := Rle_dec.

(** The conversion [(int) d] of a double to an int: truncation towards
    zero. *)
Definition Rtrunc (d : R) : Z :=
  if decide (0 <= d) then Int_part d else (- Int_part (- d))%Z.

(** [std::round]: the nearest integer, halfway cases away from zero. *)
Definition std_round (d : R) : R :=
  if decide (0 <= d) then IZR (Int_part (d + / 2))
  else - IZR (Int_part (- d + / 2)).

(** [std::remainder a b]: [a - n * b], with [n] the integer nearest to
    [a / b], halfway cases to the even one. *)
Definition nearest_even (q : R) : Z :=
  let f := Int_part q in
  if decide (q - IZR f < / 2) then f
  else if decide (/ 2 < q - IZR f) then (f + 1)%Z
  else if Z.even f then f else (f + 1)%Z.

Definition std_remainder (a b : R) : R := a - IZR (nearest_even (a / b)) * b.

(** ** Data *)

(** [RS_Vector]; only the [x] and [y] members are read in this file. *)
Record RS_Vector : Type := mkVector { vec_x : R; vec_y : R }.

Definition vec_minus (a b : RS_Vector) : RS_Vector :=
  mkVector (vec_x a - vec_x b) (vec_y a - vec_y b).

(** [RS_Vector::scale(const RS_Vector&)]: componentwise product. *)
Definition vec_scale (a f : RS_Vector) : RS_Vector :=
  mkVector (vec_x a * vec_x f) (vec_y a * vec_y f).

Inductive RS_Color : Type := RGB (r g b : Z).

Inductive EntityType : Type := EntityGraphic | EntityContainer | EntityOther.

#[global] Instance EntityType_eq_dec : EqDecision EntityType.
Proof. solve_decision. Defined.

(** The entity container the view shows: its type tag, its bounding box
    ([getMin], [getMax]), the modified flag that [setModified] writes, and
    the answer of [getGraphic()->isGridOn()] ([None] when [getGraphic()] is
    null). *)
Record RS_EntityContainer : Type := mkContainer {
  rtti : EntityType;
  getMin : RS_Vector;
  getMax : RS_Vector;
  modified : bool;
  graphicGridOn : option bool
}.

(** Modelled from the spec: [RS_Entity::getSize] is declared outside this
    file; it is the extent of the bounding box, [getMax - getMin]. *)
Definition getSize (c : RS_EntityContainer) : RS_Vector :=
  vec_minus (getMax c) (getMin c).

Definition setModified (m : bool) (c : RS_EntityContainer) : RS_EntityContainer :=
  mkContainer (rtti c) (getMin c) (getMax c) m (graphicGridOn c).

(** The members of [RS_Grid] that the view reads while drawing. *)
Record RS_Grid : Type := mkGrid {
  getMetaX : list R;
  getMetaY : list R;
  getPoints : list RS_Vector;
  getCellVector : RS_Vector;
  getMetaGridWidth : RS_Vector;
  isIsometric : bool
}.

Record ColorData : Type := mkColorData {
  gridColor : RS_Color;
  metaGridColor : RS_Color
}.

(** One slot of the view history: [std::tuple<int, int, RS_Vector>]. *)
Definition SavedView : Type := (Z * Z * RS_Vector)%type.

(** The members of [RS_GraphicView] that the functions below read or
    write. [getWidth] and [getHeight] are the size the host widget reports;
    [previous_zoom_state] is the log of the emitted signal of that name,
    newest last. *)
Record RS_GraphicView : Type := mkView {
  container : option RS_EntityContainer;
  grid : option RS_Grid;
  m_colorData : ColorData;
  gridType : Z;
  zoomFrozen : bool;
  draftMode : bool;
  printPreview : bool;
  factor : RS_Vector;
  offsetX : Z;
  offsetY : Z;
  borderLeft : Z;
  borderTop : Z;
  borderRight : Z;
  borderBottom : Z;
  savedViews : list SavedView;
  savedViewIndex : Z;
  savedViewCount : Z;
  previousViewTime : Z;
  getWidth : Z;
  getHeight : Z;
  previous_zoom_state : list bool
}.

(** Assignments to one member. *)
Definition with_container (c : option RS_EntityContainer) (v : RS_GraphicView) :=
  mkView c (grid v) (m_colorData v) (gridType v) (zoomFrozen v) (draftMode v)
    (printPreview v) (factor v) (offsetX v) (offsetY v) (borderLeft v)
    (borderTop v) (borderRight v) (borderBottom v) (savedViews v)
    (savedViewIndex v) (savedViewCount v) (previousViewTime v) (getWidth v)
    (getHeight v) (previous_zoom_state v).

Definition with_grid (g : option RS_Grid) (v : RS_GraphicView) :=
  mkView (container v) g (m_colorData v) (gridType v) (zoomFrozen v)
    (draftMode v) (printPreview v) (factor v) (offsetX v) (offsetY v)
    (borderLeft v) (borderTop v) (borderRight v) (borderBottom v)
    (savedViews v) (savedViewIndex v) (savedViewCount v) (previousViewTime v)
    (getWidth v) (getHeight v) (previous_zoom_state v).

Definition with_zoomFrozen (b : bool) (v : RS_GraphicView) :=
  mkView (container v) (grid v) (m_colorData v) (gridType v) b (draftMode v)
    (printPreview v) (factor v) (offsetX v) (offsetY v) (borderLeft v)
    (borderTop v) (borderRight v) (borderBottom v) (savedViews v)
    (savedViewIndex v) (savedViewCount v) (previousViewTime v) (getWidth v)
    (getHeight v) (previous_zoom_state v).

Definition with_factor (f : RS_Vector) (v : RS_GraphicView) :=
  mkView (container v) (grid v) (m_colorData v) (gridType v) (zoomFrozen v)
    (draftMode v) (printPreview v) f (offsetX v) (offsetY v) (borderLeft v)
    (borderTop v) (borderRight v) (borderBottom v) (savedViews v)
    (savedViewIndex v) (savedViewCount v) (previousViewTime v) (getWidth v)
    (getHeight v) (previous_zoom_state v).

Definition with_offsetX (ox : Z) (v : RS_GraphicView) :=
  mkView (container v) (grid v) (m_colorData v) (gridType v) (zoomFrozen v)
    (draftMode v) (printPreview v) (factor v) ox (offsetY v) (borderLeft v)
    (borderTop v) (borderRight v) (borderBottom v) (savedViews v)
    (savedViewIndex v) (savedViewCount v) (previousViewTime v) (getWidth v)
    (getHeight v) (previous_zoom_state v).

Definition with_offsetY (oy : Z) (v : RS_GraphicView) :=
  mkView (container v) (grid v) (m_colorData v) (gridType v) (zoomFrozen v)
    (draftMode v) (printPreview v) (factor v) (offsetX v) oy (borderLeft v)
    (borderTop v) (borderRight v) (borderBottom v) (savedViews v)
    (savedViewIndex v) (savedViewCount v) (previousViewTime v) (getWidth v)
    (getHeight v) (previous_zoom_state v).

Definition with_savedViews (l : list SavedView) (v : RS_GraphicView) :=
  mkView (container v) (grid v) (m_colorData v) (gridType v) (zoomFrozen v)
    (draftMode v) (printPreview v) (factor v) (offsetX v) (offsetY v)
    (borderLeft v) (borderTop v) (borderRight v) (borderBottom v) l
    (savedViewIndex v) (savedViewCount v) (previousViewTime v) (getWidth v)
    (getHeight v) (previous_zoom_state v).

Definition with_savedViewIndex (i : Z) (v : RS_GraphicView) :=
  mkView (container v) (grid v) (m_colorData v) (gridType v) (zoomFrozen v)
    (draftMode v) (printPreview v) (factor v) (offsetX v) (offsetY v)
    (borderLeft v) (borderTop v) (borderRight v) (borderBottom v)
    (savedViews v) i (savedViewCount v) (previousViewTime v) (getWidth v)
    (getHeight v) (previous_zoom_state v).

Definition with_savedViewCount (n : Z) (v : RS_GraphicView) :=
  mkView (container v) (grid v) (m_colorData v) (gridType v) (zoomFrozen v)
    (draftMode v) (printPreview v) (factor v) (offsetX v) (offsetY v)
    (borderLeft v) (borderTop v) (borderRight v) (borderBottom v)
    (savedViews v) (savedViewIndex v) n (previousViewTime v) (getWidth v)
    (getHeight v) (previous_zoom_state v).

Definition with_previousViewTime (t : Z) (v : RS_GraphicView) :=
  mkView (container v) (grid v) (m_colorData v) (gridType v) (zoomFrozen v)
    (draftMode v) (printPreview v) (factor v) (offsetX v) (offsetY v)
    (borderLeft v) (borderTop v) (borderRight v) (borderBottom v)
    (savedViews v) (savedViewIndex v) (savedViewCount v) t (getWidth v)
    (getHeight v) (previous_zoom_state v).

(** [emit previous_zoom_state(b)]. *)
Definition emit_previous_zoom_state (b : bool) (v : RS_GraphicView) :=
  mkView (container v) (grid v) (m_colorData v) (gridType v) (zoomFrozen v)
    (draftMode v) (printPreview v) (factor v) (offsetX v) (offsetY v)
    (borderLeft v) (borderTop v) (borderRight v) (borderBottom v)
    (savedViews v) (savedViewIndex v) (savedViewCount v) (previousViewTime v)
    (getWidth v) (getHeight v) (previous_zoom_state v ++ [b]).

(** ** Zoom factors and coordinate transform *)

Definition freezeZoom (freeze : bool) (v : RS_GraphicView) : RS_GraphicView :=
  with_zoomFrozen freeze v.

Definition isZoomFrozen (v : RS_GraphicView) : bool := zoomFrozen v.

Definition setFactorX (f : R) (v : RS_GraphicView) : RS_GraphicView :=
  if negb (zoomFrozen v)
  then with_factor (mkVector (Rabs f) (vec_y (factor v))) v
  else v.

Definition setFactorY (f : R) (v : RS_GraphicView) : RS_GraphicView :=
  if negb (zoomFrozen v)
  then with_factor (mkVector (vec_x (factor v)) (Rabs f)) v
  else v.

Definition toGuiX (v : RS_GraphicView) (x : R) : R :=
  x * vec_x (factor v) + IZR (offsetX v).

Definition toGuiY (v : RS_GraphicView) (y : R) : R :=
  - y * vec_y (factor v) + IZR (getHeight v) - IZR (offsetY v).

Definition toGui (v : RS_GraphicView) (p : RS_Vector) : RS_Vector :=
  mkVector (toGuiX v (vec_x p)) (toGuiY v (vec_y p)).

Definition toGraphX (v : RS_GraphicView) (x : Z) : R :=
  IZR (x - offsetX v) / vec_x (factor v).

Definition toGraphY (v : RS_GraphicView) (y : Z) : R :=
  IZR (- (y - getHeight v + offsetY v)) / vec_y (factor v).

(** [getGraphic]: the container itself when it is the drawing. *)
Definition getGraphic (v : RS_GraphicView) : option RS_EntityContainer :=
  match container v with
  | Some c => if decide (rtti c = EntityGraphic) then Some c else None
  | None => None
  end.

(** [isGridOn]. *)
Definition isGridOn (v : RS_GraphicView) : bool :=
  match container v with
  | Some c => match graphicGridOn c with Some b => b | None => true end
  | None => true
  end.

(** [centerOffsetX], [centerOffsetY]. The conversion [(int)] is the
    truncation, whatever the size of the double. *)
Definition centerOffsetX (v : RS_GraphicView) : RS_GraphicView :=
  match container v with
  | Some c =>
      if negb (zoomFrozen v) then
        with_offsetX
          (Rtrunc ((IZR (getWidth v - borderLeft v - borderRight v)
                    - vec_x (getSize c) * vec_x (factor v)) / 2
                   - vec_x (getMin c) * vec_x (factor v)) + borderLeft v)%Z v
      else v
  | None => v
  end.

Definition centerOffsetY (v : RS_GraphicView) : RS_GraphicView :=
  match container v with
  | Some c =>
      if negb (zoomFrozen v) then
        with_offsetY
          (Rtrunc ((IZR (getHeight v - borderTop v - borderBottom v)
                    - vec_y (getSize c) * vec_y (factor v)) / 2
                   - vec_y (getMin c) * vec_y (factor v)) + borderBottom v)%Z v
      else v
  | None => v
  end.

(** ** View history *)

(** [savedViews[i]], read and written. The vector is not bounds-checked:
    outside of it the C++ is undefined. *)
Definition slot_read (l : list SavedView) (i : Z) : option SavedView :=
  if decide (0 <= i)%Z then l !! Z.to_nat i else None.

Definition slot_write (l : list SavedView) (i : Z) (s : SavedView)
  : option (list SavedView) :=
  if decide (0 <= i < Z.of_nat (length l))%Z
  then Some (<[Z.to_nat i := s]> l) else None.

(** [if (getGraphic()) getGraphic()->setModified(true)]: the drawing is
    the container of the view, which is written in place. *)
Definition setGraphicModified (v : RS_GraphicView) : RS_GraphicView :=
  match getGraphic v with
  | Some g => with_container (Some (setModified true g)) v
  | None => v
  end.

(** [saveView]. [now] is the clock read for the 500 ms window and [now']
    the one stored as the new [previousViewTime]. *)
Definition saveView (now now' : Z) (v : RS_GraphicView) : option RS_GraphicView :=
  let v := setGraphicModified v in
  let noUpdateWindow := (now - 500)%Z in
  if decide (noUpdateWindow < previousViewTime v)%Z then Some v else
  let v := with_previousViewTime now' v in
  l ← slot_write (savedViews v) (savedViewIndex v)
         (offsetX v, offsetY v, factor v);
  let v := with_savedViews l v in
  let size := Z.of_nat (length (savedViews v)) in
  let v := with_savedViewIndex ((savedViewIndex v + 1) mod size)%Z v in
  let v := if decide (savedViewCount v < size)%Z
           then with_savedViewCount (savedViewCount v + 1)%Z v else v in
  let v := if decide (savedViewCount v = 1)%Z
           then emit_previous_zoom_state true v else v in
  Some v.

(** [restoreView]. *)
Definition restoreView (v : RS_GraphicView) : option RS_GraphicView :=
  if decide (savedViewCount v = 0)%Z then Some v else
  let v := with_savedViewCount (savedViewCount v - 1)%Z v in
  let v := if decide (savedViewCount v = 0)%Z
           then emit_previous_zoom_state false v else v in
  let size := Z.of_nat (length (savedViews v)) in
  let v := with_savedViewIndex ((savedViewIndex v + size - 1) mod size)%Z v in
  s ← slot_read (savedViews v) (savedViewIndex v);
  let v := with_offsetX (s.1.1) v in
  let v := with_offsetY (s.1.2) v in
  let v := with_factor (s.2) v in
  Some v.

(** [zoomPrevious]. *)
Definition zoomPrevious (v : RS_GraphicView) : option RS_GraphicView :=
  match container v with
  | Some _ => restoreView v
  | None => Some v
  end.

(** What the constructor fixes of the history: [savedViews(16)] and the
    two counters at zero. *)
Definition constructed (v : RS_GraphicView) : Prop :=
  length (savedViews v) = 16%nat /\ savedViewIndex v = 0%Z
  /\ savedViewCount v = 0%Z.

(** Sequences of [saveView] and [restoreView] calls. *)
Inductive ViewCall : Type :=
| CallSaveView (now now' : Z)
| CallRestoreView.

Definition call (c : ViewCall) (v : RS_GraphicView) : option RS_GraphicView :=
  match c with
  | CallSaveView now now' => saveView now now' v
  | CallRestoreView => restoreView v
  end.

Fixpoint runCalls (cs : list ViewCall) (v : RS_GraphicView)
  : option RS_GraphicView :=
  match cs with
  | [] => Some v
  | c :: cs' => v' ← call c v; runCalls cs' v'
  end.

(** The bounds of the ring buffer. *)
Definition history_bounded (v : RS_GraphicView) : Prop :=
  (0 <= savedViewCount v <= 16)%Z /\ (0 <= savedViewIndex v < 16)%Z.

(** The invariant behind the bounds: sixteen slots, the index inside them,
    the count at most their number. *)
Definition history_inv (v : RS_GraphicView) : Prop :=
  length (savedViews v) = 16%nat /\ history_bounded v.

(** ** Painter *)

Inductive LineWidth : Type := Width00 | Width01 | WidthOther (w : Z).

Inductive LineType : Type :=
  NoPen | SolidLine | DotLineTiny | LineTypeOther (t : Z).

Record RS_Pen : Type := mkPen {
  penColor : RS_Color;
  penWidth : LineWidth;
  penLineType : LineType
}.

(** [QRect(left, top, width, height)]. *)
Record QRect : Type := mkRect {
  rectLeft : Z; rectTop : Z; rectWidth : Z; rectHeight : Z
}.

Definition moveTopLeft (x y : Z) (r : QRect) : QRect :=
  mkRect x y (rectWidth r) (rectHeight r).

(** A call made on the painter. *)
Inductive PainterCall : Type :=
| GetPen
| SetPen (pen : RS_Pen)
| DrawLine (a b : RS_Vector)
| DrawGridPoint (p : RS_Vector)
| DrawText (r : QRect) (text : string).

(** The painter: its current pen and the calls issued on it, oldest
    first. *)
Record RS_Painter : Type := mkPainter {
  painterPen : RS_Pen;
  issued : list PainterCall
}.

Definition getPen (p : RS_Painter) : RS_Pen * RS_Painter :=
  (painterPen p, mkPainter (painterPen p) (issued p ++ [GetPen])).

Definition setPen (pen : RS_Pen) (p : RS_Painter) : RS_Painter :=
  mkPainter pen (issued p ++ [SetPen pen]).

Definition drawLine (a b : RS_Vector) (p : RS_Painter) : RS_Painter :=
  mkPainter (painterPen p) (issued p ++ [DrawLine a b]).

Definition drawGridPoint (a : RS_Vector) (p : RS_Painter) : RS_Painter :=
  mkPainter (painterPen p) (issued p ++ [DrawGridPoint a]).

(** ** What the rest of the application supplies *)

(** Constants and functions that this file uses and that are declared
    elsewhere: the tolerances of [rs.h], [RS_EntityContainer::calculateBorders],
    [RS_Grid::updatePointArray] (the grid reads its view), the translation
    [tr], the bounding rectangle that [RS_Painter::drawText] hands back.
    [drawPaper], the print-preview branch of [drawLayer1], is not embedded
    and is a parameter as well. *)
Class Externals : Type := {
  RS_TOLERANCE : R;
  RS_MAXDOUBLE : R;
  calculateBorders : RS_EntityContainer -> RS_EntityContainer;
  updatePointArray : RS_GraphicView -> RS_Grid -> RS_Grid;
  tr : string -> string;
  textBoundingRect : QRect -> string -> QRect;
  drawPaper : RS_GraphicView -> RS_Painter -> option RS_Painter
}.

Definition drawText `{Externals} (r : QRect) (text : string) (p : RS_Painter)
  : QRect * RS_Painter :=
  (textBoundingRect r text,
   mkPainter (painterPen p) (issued p ++ [DrawText r text])).

(** ** Zoom to fit *)

(** [zoomAuto]. The two clock readings are those of the [saveView] it
    calls. *)
Definition zoomAuto `{Externals} (now now' : Z) (axis keepAspectRatio : bool)
    (v : RS_GraphicView) : option RS_GraphicView :=
  match container v with
  | None => Some v
  | Some c0 =>
      let c := calculateBorders c0 in
      let v := with_container (Some c) v in
      let '(sx, sy) :=
        if axis then
          let dV := vec_minus (getMax c) (getMin c) in
          (Rmax (vec_x dV) 0, Rmax (vec_y dV) 0)
        else (vec_x (getSize c), vec_y (getSize c)) in
      let '(fx, fy, fFlags) := (1, 1, 0%Z) in
      let '(fx, fFlags) :=
        if decide (RS_TOLERANCE < sx)
        then (IZR (getWidth v - borderLeft v - borderRight v) / sx, fFlags)
        else (fx, (fFlags + 1)%Z) in
      let '(fy, fFlags) :=
        if decide (RS_TOLERANCE < sy)
        then (IZR (getHeight v - borderTop v - borderBottom v) / sy, fFlags)
        else (fy, (fFlags + 2)%Z) in
      if decide (fFlags = 3)%Z then Some v else
      let '(fx, fy) :=
        if decide (fFlags = 1)%Z then (fy, fy)
        else if decide (fFlags = 2)%Z then (fx, fx)
        else if keepAspectRatio then (Rmin fx fy, Rmin fx fy)
        else (fx, fy) in
      let fFlags := 0%Z in
      let '(fx, fFlags) :=
        if decide (fx < RS_TOLERANCE \/ RS_MAXDOUBLE < fx)
        then (1, (fFlags + 1)%Z) else (fx, fFlags) in
      let '(fy, fFlags) :=
        if decide (fy < RS_TOLERANCE \/ RS_MAXDOUBLE < fy)
        then (1, (fFlags + 2)%Z) else (fy, fFlags) in
      if decide (fFlags = 3)%Z then Some v else
      v ← saveView now now' v;
      let v := setFactorX fx v in
      let v := setFactorY fy v in
      let v := centerOffsetX v in
      let v := centerOffsetY v in
      Some v
  end.

(** The factors that fit the bounding box of [c] into the view, borders
    left out: the [fx] and [fy] that [zoomAuto] computes first. *)
Definition widthFit (v : RS_GraphicView) (c : RS_EntityContainer) : R :=
  IZR (getWidth v - borderLeft v - borderRight v) / vec_x (getSize c).

Definition heightFit (v : RS_GraphicView) (c : RS_EntityContainer) : R :=
  IZR (getHeight v - borderTop v - borderBottom v) / vec_y (getSize c).

(** ** Drawing, layer 1 *)

(** [drawGrid]. *)
Definition drawGrid (v : RS_GraphicView) (p : RS_Painter) : option RS_Painter :=
  g ← grid v;
  let p := setPen (mkPen (gridColor (m_colorData v)) Width00 SolidLine) p in
  let gridTypeSolid := bool_decide (gridType v = 1%Z) in
  Some
    (if gridTypeSolid then
       let cellSize := getCellVector g in
       let p :=
         fold_left (fun p x =>
           fold_left (fun p i =>
             let subX := x - IZR i * vec_x cellSize in
             drawLine (mkVector (toGuiX v subX) 0)
                      (mkVector (toGuiX v subX) (IZR (getHeight v))) p)
             (seqZ 1 9) p)
           (getMetaX g) p in
       fold_left (fun p y =>
         fold_left (fun p j =>
           let subY := y - IZR j * vec_y cellSize in
           drawLine (mkVector 0 (toGuiY v subY))
                    (mkVector (IZR (getWidth v)) (toGuiY v subY)) p)
           (seqZ 1 9) p)
         (getMetaY g) p
     else
       fold_left (fun p pt => drawGridPoint (toGui v pt) p) (getPoints g) p).

(** The loop of the isometric meta grid: [n] iterations are left, the
    counter [i] of the source is [n - 1]. *)
Fixpoint isometricLines (n : nat) (cmx cmy : Z) (dx dy : R)
    (vp0 vp1 vp2 vp3 : RS_Vector) (p : RS_Painter) : RS_Painter :=
  match n with
  | O => p
  | S n' =>
      let i := Z.of_nat n' in
      let '(vp0, vp2) :=
        if decide (i <= cmx)%Z
        then (mkVector (vec_x vp0 + dx) (vec_y vp0),
              mkVector (vec_x vp2) (vec_y vp2 - dy))
        else (mkVector (vec_x vp0) (vec_y vp0 - dy),
              mkVector (vec_x vp2 - dx) (vec_y vp2)) in
      let '(vp1, vp3) :=
        if decide (i <= cmy)%Z
        then (mkVector (vec_x vp1) (vec_y vp1 - dy),
              mkVector (vec_x vp3 - dx) (vec_y vp3))
        else (mkVector (vec_x vp1 + dx) (vec_y vp1),
              mkVector (vec_x vp3) (vec_y vp3 - dy)) in
      let p := drawLine vp0 vp1 p in
      let p := drawLine vp2 vp3 p in
      isometricLines n' cmx cmy dx dy vp0 vp1 vp2 vp3 p
  end.

(** [drawMetaGrid]. It updates the grid of the view before it draws. *)
Definition drawMetaGrid `{Externals} (v : RS_GraphicView) (p : RS_Painter)
  : option (RS_GraphicView * RS_Painter) :=
  g0 ← grid v;
  let g := updatePointArray v g0 in
  let v := with_grid (Some g) v in
  let gridTypeSolid := bool_decide (gridType v = 1%Z) in
  let penLineType := if gridTypeSolid then SolidLine else DotLineTiny in
  let p := setPen (mkPen (metaGridColor (m_colorData v)) Width01 penLineType) p in
  let dv := vec_scale (getMetaGridWidth g) (factor v) in
  let dx := Rabs (vec_x dv) in
  let dy := Rabs (vec_y dv) in
  let H := IZR (getHeight v) in
  let W := IZR (getWidth v) in
  let mx := getMetaX g in
  let p :=
    fold_left (fun p x =>
      let p := drawLine (mkVector (toGuiX v x) 0) (mkVector (toGuiX v x) H) p in
      if isIsometric g
      then drawLine (mkVector (toGuiX v x + 5 / 10 * dx) 0)
                    (mkVector (toGuiX v x + 5 / 10 * dx) H) p
      else p)
      mx p in
  let my := getMetaY g in
  if isIsometric g then
    let dx := Rabs dx in
    let dy := Rabs dy in
    if decide (length my = 0%nat \/ dx < 1 \/ dy < 1) then Some (v, p) else
    mx0 ← mx !! 0%nat;
    my0 ← my !! 0%nat;
    let baseMeta := toGui v (mkVector mx0 my0) in
    let vp0 := mkVector (- std_remainder (- vec_x baseMeta) dx - dx)
                        (H - std_remainder (H - vec_y baseMeta) dy + dy) in
    let vp1 := vp0 in
    let vp2 := mkVector (W - std_remainder (W - vec_x baseMeta) dx + dx)
                        (vec_y vp0) in
    let vp3 := vp2 in
    let cmx := Rtrunc (std_round ((vec_x vp2 - vec_x vp0) / dx)) in
    let cmy := Rtrunc (std_round
                 ((vec_y vp0 + std_remainder (- vec_y baseMeta) dy + dy) / dy)) in
    Some (v, isometricLines (Z.to_nat (cmx + cmy + 2 + 1)) cmx cmy dx dy
               vp0 vp1 vp2 vp3 p)
  else
    Some (v, fold_left (fun p y =>
               drawLine (mkVector 0 (toGuiY v y)) (mkVector W (toGuiY v y)) p)
               my p).

(** [drawDraftSign]: the sign in the four corners. *)
Definition drawDraftSign `{Externals} (v : RS_GraphicView) (p : RS_Painter)
  : RS_Painter :=
  let draftSign := tr "Draft" in
  snd (fold_left (fun '(boundingRect, p) i =>
         let '(boundingRect, p) := drawText boundingRect draftSign p in
         let px := if decide (Z.land i 1 = 0)%Z then 0%Z
                   else (getWidth v - rectWidth boundingRect)%Z in
         let py := if decide (Z.land i 2 = 0)%Z then 0%Z
                   else (getHeight v - rectHeight boundingRect)%Z in
         (moveTopLeft px py boundingRect, p))
       (seqZ 1 4) (mkRect 0 0 64 64, p)).

(** [drawLayer1]. [logicalDotsPerInch] is the resolution of the first
    screen. *)
Definition drawLayer1 `{Externals} (logicalDotsPerInch : R)
    (v : RS_GraphicView) (p : RS_Painter)
  : option (RS_GraphicView * RS_Painter) :=
  if printPreview v then
    p ← drawPaper v p; Some (v, p)
  else
    let dpiX := Rtrunc logicalDotsPerInch in
    let isHiDpi := bool_decide (96 < dpiX)%Z in
    let '(penSaved, p) := getPen p in
    let p := if isHiDpi
             then setPen (mkPen (penColor penSaved) Width01 (penLineType penSaved)) p
             else p in
    '(v, p) ← (if bool_decide (is_Some (grid v)) && isGridOn v then
                 '(v, p) ← drawMetaGrid v p;
                 p ← drawGrid v p;
                 Some (v, p)
               else Some (v, p));
    let p := if draftMode v then drawDraftSign v p else p in
    let p := if isHiDpi then setPen penSaved p else p in
    Some (v, p).

(** ** Distances, offsets and simple zooms *)





(** [toGraph(int x, int y)]. *)
Definition toGraph (v : RS_GraphicView) (x y : Z) : RS_Vector :=
  mkVector (toGraphX v x) (toGraphY v y).

Definition setOffsetX (ox : Z) (v : RS_GraphicView) : RS_GraphicView :=
  with_offsetX ox v.

Definition setOffsetY (oy : Z) (v : RS_GraphicView) : RS_GraphicView :=
  with_offsetY oy v.

Definition setOffset (ox oy : Z) (v : RS_GraphicView) : RS_GraphicView :=
  setOffsetY oy (setOffsetX ox v).

Definition setFactor (f : R) (v : RS_GraphicView) : RS_GraphicView :=
  setFactorY f (setFactorX f v).

(** [zoomPan]. *)
Definition zoomPan (dx dy : Z) (v : RS_GraphicView) : RS_GraphicView :=
  let v := with_offsetX (offsetX v + dx)%Z v in
  with_offsetY (offsetY v - dy)%Z v.

(** [RS2::Direction]. *)
Inductive Direction : Type := Up | Left | Right | Down.

(** [zoomScroll]. *)
Definition zoomScroll (direction : Direction) (v : RS_GraphicView)
  : RS_GraphicView :=
  match direction with
  | Up => with_offsetY (offsetY v - 50)%Z v
  | Down => with_offsetY (offsetY v + 50)%Z v
  | Right => with_offsetX (offsetX v + 50)%Z v
  | Left => with_offsetX (offsetX v - 50)%Z v
  end.

(** The limits of a 32-bit [int]. *)
Definition INT_MIN : Z := -2147483648.
Definition INT_MAX : Z := 2147483647.

(** [(int) d] with its range: the conversion truncates towards zero, and
    C++ leaves it undefined when the truncated value is not an [int]. *)
Definition int_cast (d : R) : option Z :=
  let z := Rtrunc d in
  if decide (INT_MIN <= z <= INT_MAX)%Z then Some z else None.

(** The double that the literal [1.0e-6] denotes. One millionth is not a
    binary fraction; the nearest double is [0x1.0c6f7a0b5ed8dp-20], that
    is [4722366482869645 / 2^72], a little below one millionth. *)
Definition lit_1e_6 : R := 4722366482869645 / 4722366482869645213696.

(** [zoomInX], [zoomInY]. [getWidth() / 2] is the division of ints, which
    truncates ([Z.quot]); the product is converted with [(int)]. *)
Definition zoomInX (f : R) (v : RS_GraphicView) : option RS_GraphicView :=
  let v := with_factor (mkVector (vec_x (factor v) * f) (vec_y (factor v))) v in
  z ← int_cast (IZR (offsetX v - getWidth v ÷ 2) * f);
  Some (with_offsetX (z + getWidth v ÷ 2)%Z v).


(** [zoomOutX], [zoomOutY]: a factor below [1.0e-6] is refused; the
    quotient is converted with [(int)]. *)
Definition zoomOutX (f : R) (v : RS_GraphicView) : option RS_GraphicView :=
  if decide (f < lit_1e_6) then Some v else
  let v := with_factor (mkVector (vec_x (factor v) / f) (vec_y (factor v))) v in
  z ← int_cast (IZR (offsetX v) / f);
  Some (with_offsetX z v).


(** The doubles that [centerOffsetX] and [centerOffsetY] convert with
    [(int)], for a view that shows the drawing [c]. *)
Definition centerOffsetX_double (v : RS_GraphicView) (c : RS_EntityContainer)
  : R :=
  (IZR (getWidth v - borderLeft v - borderRight v)
   - vec_x (getSize c) * vec_x (factor v)) / 2
  - vec_x (getMin c) * vec_x (factor v).

Definition centerOffsetY_double (v : RS_GraphicView) (c : RS_EntityContainer)
  : R :=
  (IZR (getHeight v - borderTop v - borderBottom v)
   - vec_y (getSize c) * vec_y (factor v)) / 2
  - vec_y (getMin c) * vec_y (factor v).

(** ** The transform in binary64 *)

(** [toGuiX] and [toGuiY] as the machine computes them: the members and
    the argument are binary64 numbers, every operation rounds to the
    nearest one, and an [int] is converted to the double of the same
    value (every [int] is a binary64 number). *)
Definition double_of_int (z : Z) : float :=
  if (z <? 0)%Z then (- PrimFloat.of_uint63 (Uint63.of_Z (- z)))%float
  else PrimFloat.of_uint63 (Uint63.of_Z z).

Definition toGuiX_binary64 (factor_x : float) (offsetX : Z) (x : float)
  : float :=
  (x * factor_x + double_of_int offsetX)%float.

Definition toGuiY_binary64 (factor_y : float) (getHeight offsetY : Z)
    (y : float) : float :=
  (- y * factor_y + double_of_int getHeight - double_of_int offsetY)%float.

(** ** Zoom to a window *)

(** [zoomWindow]. The message to the dialog factory on the refused path is
    left out. *)
Definition zoomWindow (now now' : Z) (v1 v2 : RS_Vector)
    (keepAspectRatio : bool) (v : RS_GraphicView) : option RS_GraphicView :=
  let '(zoomX, zoomY, zoomBorder) := (480, 640, 0%Z) in
  let '(v1x, v2x) :=
    if decide (vec_x v2 < vec_x v1) then (vec_x v2, vec_x v1)
    else (vec_x v1, vec_x v2) in
  let '(v1y, v2y) :=
    if decide (vec_y v2 < vec_y v1) then (vec_y v2, vec_y v1)
    else (vec_y v1, vec_y v2) in
  let zoomX :=
    if decide (lit_1e_6 < v2x - v1x)
    then IZR (getWidth v) / (v2x - v1x) else zoomX in
  let zoomY :=
    if decide (lit_1e_6 < v2y - v1y)
    then IZR (getHeight v) / (v2y - v1y) else zoomY in
  let '(zoomX, zoomY) :=
    if keepAspectRatio then
      if decide (zoomX < zoomY) then
        if decide (getWidth v <> 0%Z) then
          let z := IZR (getWidth v - 2 * zoomBorder) / IZR (getWidth v) * zoomX in
          (z, z)
        else (zoomX, zoomY)
      else
        if decide (getHeight v <> 0%Z) then
          let z := IZR (getHeight v - 2 * zoomBorder) / IZR (getHeight v) * zoomY in
          (z, z)
        else (zoomX, zoomY)
    else (zoomX, zoomY) in
  let zoomX := Rabs zoomX in
  let zoomY := Rabs zoomY in
  pixLeft ← int_cast (v1x * zoomX);
  pixTop ← int_cast (v2y * zoomY);
  pixRight ← int_cast (v2x * zoomX);
  pixBottom ← int_cast (v1y * zoomY);
  if decide (pixLeft = INT_MIN \/ pixLeft = INT_MAX
             \/ pixRight = INT_MIN \/ pixRight = INT_MAX
             \/ pixTop = INT_MIN \/ pixTop = INT_MAX
             \/ pixBottom = INT_MIN \/ pixBottom = INT_MAX)
  then Some v else
  v ← saveView now now' v;
  let v := with_offsetX (- pixLeft + (getWidth v - pixRight + pixLeft) ÷ 2)%Z v in
  let v := with_offsetY (- pixTop + (getHeight v - pixBottom + pixTop) ÷ 2)%Z v in
  let v := with_factor (mkVector zoomX (vec_y (factor v))) v in
  let v := with_factor (mkVector (vec_x (factor v)) zoomY) v in
  Some v.

(** ** Zoom to the page *)

(** What [zoomPage] reads of the drawing that [container->getGraphic()]
    finds: [RS_Graphic::getPrintAreaSize] and [RS_Graphic::getPaperScale],
    both declared elsewhere. *)
Class PaperExternals : Type := {
  getPrintAreaSize : RS_EntityContainer -> RS_Vector;
  getPaperScale : RS_EntityContainer -> R
}.

(** [zoomPage]. *)
Definition zoomPage `{Externals} `{PaperExternals} (v : RS_GraphicView)
  : RS_GraphicView :=
  match container v with
  | None => v
  | Some c =>
      match graphicGridOn c with
      | None => v
      | Some _ =>
          let s := mkVector (vec_x (getPrintAreaSize c) / getPaperScale c)
                            (vec_y (getPrintAreaSize c) / getPaperScale c) in
          let fx :=
            if decide (RS_TOLERANCE < vec_x s)
            then IZR (getWidth v - borderLeft v - borderRight v) / vec_x s
            else 1 in
          let fy :=
            if decide (RS_TOLERANCE < vec_y s)
            then IZR (getHeight v - borderTop v - borderBottom v) / vec_y s
            else 1 in
          let '(fx, fy) := (Rmin fx fy, Rmin fx fy) in
          let '(fx, fy) := if decide (fx < RS_TOLERANCE) then (1, 1) else (fx, fy) in
          let v := setFactorX fx v in
          let v := setFactorY fy v in
          let v := centerOffsetX v in
          centerOffsetY v
      end
  end.

(** ** The history as a stack *)

(** The saved views that [restoreView] can still reach, newest first: the
    [savedViewCount] slots before [savedViewIndex], going backwards around
    the ring. *)
Definition history (v : RS_GraphicView) : list (option SavedView) :=
  (fun k : Z =>
     slot_read (savedViews v)
       ((savedViewIndex v - 1 - k) mod Z.of_nat (length (savedViews v)))%Z)
  <$> seqZ 0 (savedViewCount v).

(** The view that [saveView] stores. *)
Definition currentView (v : RS_GraphicView) : SavedView :=
  (offsetX v, offsetY v, factor v).

(** The signal log tells whether the history is empty: nothing was emitted
    and it is empty, or the last signal is [true] exactly when it is not. *)
Definition signal_inv (v : RS_GraphicView) : Prop :=
  match last (previous_zoom_state v) with
  | None => savedViewCount v = 0%Z
  | Some b => b = true <-> savedViewCount v <> 0%Z
  end.

(** Painter calls that put something on the screen. *)
Definition isDrawingCall (c : PainterCall) : bool :=
  match c with
  | GetPen | SetPen _ => false
  | DrawLine _ _ | DrawGridPoint _ | DrawText _ _ => true
  end.

Definition isGridCall (c : PainterCall) : bool :=
  match c with
  | DrawLine _ _ | DrawGridPoint _ => true
  | GetPen | SetPen _ | DrawText _ _ => false
  end.

(** ** Sample values *)

Definition sampleExternals : Externals := {|
  RS_TOLERANCE := / 10000000000;
  RS_MAXDOUBLE := 10000000000;
  calculateBorders := fun c => c;
  updatePointArray := fun _ g => g;
  tr := fun s => s;
  textBoundingRect := fun r _ => r;
  drawPaper := fun _ p => Some p
|}.

Definition sampleDrawing : RS_EntityContainer :=
  mkContainer EntityGraphic (mkVector 0 0) (mkVector 100 50) false (Some true).

Definition samplePoint : RS_EntityContainer :=
  mkContainer EntityGraphic (mkVector 1 1) (mkVector 1 1) false (Some true).

Definition sampleGrid : RS_Grid :=
  mkGrid [0; 100] [0; 100] [mkVector 0 0; mkVector 10 0]
         (mkVector 10 10) (mkVector 100 100) false.

Definition sampleView : RS_GraphicView :=
  mkView (Some sampleDrawing) (Some sampleGrid)
         (mkColorData (RGB 128 128 128) (RGB 64 64 64)) 0
         false false false (mkVector 2 2) 10 20 5 5 5 5
         (replicate 16 (0%Z, 0%Z, mkVector 0 0)) 0 0 0 810 610 [].

Definition samplePainter : RS_Painter :=
  mkPainter (mkPen (RGB 0 0 0) Width00 SolidLine) [].

Definition sampleLine : RS_EntityContainer :=
  mkContainer EntityGraphic (mkVector 0 0) (mkVector 100 0) false (Some true).

Definition sampleLineView : RS_GraphicView :=
  with_container (Some sampleLine) sampleView.

Definition sampleFrozenView : RS_GraphicView := freezeZoom true sampleView.

Definition sampleNoGridView : RS_GraphicView := with_grid None sampleView.

Definition sampleHistoryView : RS_GraphicView :=
  with_savedViewCount 1 (with_savedViewIndex 1 sampleView).

Definition samplePaper : PaperExternals := {|
  getPrintAreaSize := fun _ => mkVector 200 100;
  getPaperScale := fun _ => 1
|}.

(** * Properties *)

(** One step of the option monad, without unfolding the loops. *)
Ltac step_bind := unfold mbind, option_bind; cbv beta iota.

Section Properties.

Context `{E : Externals}.

(** ** Coordinate transform *)

(** C1. With both factors non-zero, mapping an integer screen coordinate to
    the model and back to the screen gives the coordinate again, in x and
    in y. *)
Theorem toGui_toGraph_identity (v : RS_GraphicView) (x y : Z) :
  vec_x (factor v) <> 0 -> vec_y (factor v) <> 0 ->
  toGuiX v (toGraphX v x) = IZR x /\ toGuiY v (toGraphY v y) = IZR y.
Proof.
  intros Hx Hy. unfold toGuiX, toGuiY, toGraphX, toGraphY. split.
  - rewrite minus_IZR. field. exact Hx.
  - rewrite opp_IZR, plus_IZR, minus_IZR. field. exact Hy.
Qed.

(** C7, over exact real arithmetic. With a positive y factor [toGuiY] is
    strictly decreasing, and with a positive x factor [toGuiX] is strictly
    increasing. *)
Theorem toGui_orientation (v : RS_GraphicView) :
  (0 < vec_y (factor v) ->
   forall y1 y2 : R, y1 < y2 -> toGuiY v y1 > toGuiY v y2)
  /\ (0 < vec_x (factor v) ->
      forall x1 x2 : R, x1 < x2 -> toGuiX v x1 < toGuiX v x2).
Proof.
  unfold toGuiX, toGuiY. split; intros Hf a b Hab.
  - assert (a * vec_y (factor v) < b * vec_y (factor v))
      by (apply Rmult_lt_compat_r; assumption).
    lra.
  - assert (a * vec_x (factor v) < b * vec_x (factor v))
      by (apply Rmult_lt_compat_r; assumption).
    lra.
Qed.

(** C10. While the zoom is not frozen [setFactorX f] stores the absolute
    value of [f] in [factor.x] and [setFactorY f] stores it in [factor.y],
    so the stored factor is never negative; while the zoom is frozen both
    leave the factor as it is. [freezeZoom] switches between the two. *)
Theorem setFactor_abs_and_freeze (v : RS_GraphicView) (f : R) :
  (zoomFrozen v = false ->
   vec_x (factor (setFactorX f v)) = Rabs f
   /\ vec_y (factor (setFactorY f v)) = Rabs f
   /\ 0 <= vec_x (factor (setFactorX f v))
   /\ 0 <= vec_y (factor (setFactorY f v)))
  /\ (zoomFrozen v = true ->
      factor (setFactorX f v) = factor v /\ factor (setFactorY f v) = factor v)
  /\ zoomFrozen (freezeZoom true v) = true
  /\ zoomFrozen (freezeZoom false v) = false.
Proof.
  unfold setFactorX, setFactorY, freezeZoom.
  split; [| split; [| split; reflexivity]].
  - intros ->. simpl. pose proof (Rabs_pos f). auto.
  - intros ->. simpl. auto.
Qed.

(** ** View history *)

Lemma slot_write_Some (l : list SavedView) (i : Z) (s : SavedView) :
  (0 <= i < Z.of_nat (length l))%Z ->
  slot_write l i s = Some (<[Z.to_nat i := s]> l).
Proof. intros Hi. unfold slot_write. rewrite decide_True; done. Qed.

Lemma slot_read_written (l : list SavedView) (i : Z) (s : SavedView) :
  (0 <= i < Z.of_nat (length l))%Z ->
  slot_read (<[Z.to_nat i := s]> l) i = Some s.
Proof.
  intros Hi. unfold slot_read. rewrite decide_True by lia.
  apply list_lookup_insert_eq. lia.
Qed.

Lemma slot_read_Some (l : list SavedView) (i : Z) :
  (0 <= i < Z.of_nat (length l))%Z -> is_Some (slot_read l i).
Proof.
  intros Hi. unfold slot_read. rewrite decide_True by lia.
  apply lookup_lt_is_Some. lia.
Qed.

(** Stepping the index forwards and then backwards around the ring. *)
Lemma ring_back_forth (i n : Z) :
  (0 <= i < n)%Z -> (((i + 1) mod n + n - 1) mod n = i)%Z.
Proof.
  intros Hi. destruct (decide (i + 1 = n)%Z) as [Heq | Hne].
  - rewrite Heq, Z.mod_same by lia.
    rewrite Z.mod_small by lia. lia.
  - rewrite (Z.mod_small (i + 1)) by lia.
    replace (i + 1 + n - 1)%Z with (i + 1 * n)%Z by lia.
    rewrite Z.mod_add by lia. apply Z.mod_small. lia.
Qed.

(** [saveView] touches neither the offsets nor the factor. *)
Lemma saveView_viewport (now now' : Z) (v v' : RS_GraphicView) :
  saveView now now' v = Some v' ->
  offsetX v' = offsetX v /\ offsetY v' = offsetY v /\ factor v' = factor v
  /\ zoomFrozen v' = zoomFrozen v.
Proof.
  unfold saveView, setGraphicModified. intros Hs.
  destruct (getGraphic v); simpl in Hs;
    (destruct (decide _) in Hs; [by simplify_eq |]);
    (destruct (slot_write _ _ _) in Hs; simpl in Hs; [| done]);
    repeat (destruct (decide _) in Hs); by simplify_eq.
Qed.

(** A save inside the 500 ms window only marks the drawing. *)
Lemma saveView_dropped (now now' : Z) (v : RS_GraphicView) :
  (now - 500 < previousViewTime v)%Z ->
  saveView now now' v = Some (setGraphicModified v).
Proof.
  intros Hw. unfold saveView, setGraphicModified.
  destruct (getGraphic v); simpl; rewrite decide_True by lia; reflexivity.
Qed.

(** A save outside the window writes the slot at the index and steps the
    index. *)
Lemma saveView_recorded (now now' : Z) (v : RS_GraphicView) :
  ~ (now - 500 < previousViewTime v)%Z ->
  (0 <= savedViewIndex v < Z.of_nat (length (savedViews v)))%Z ->
  exists v1 : RS_GraphicView,
    saveView now now' v = Some v1
    /\ savedViewIndex v1
       = ((savedViewIndex v + 1) mod Z.of_nat (length (savedViews v)))%Z
    /\ savedViews v1
       = <[Z.to_nat (savedViewIndex v)
           := (offsetX v, offsetY v, factor v)]> (savedViews v)
    /\ (is_Some (container v) -> is_Some (container v1)).
Proof.
  intros Hw Hi. unfold saveView, setGraphicModified.
  destruct (getGraphic v) as [g |]; simpl;
    (rewrite decide_False by lia);
    (rewrite slot_write_Some by (simpl; lia)); simpl;
    rewrite length_insert;
    repeat (destruct (decide _)); simpl;
    eexists; (split; [reflexivity |]); simpl;
    repeat split; auto.
Qed.

Lemma saveView_is_Some (now now' : Z) (v : RS_GraphicView) :
  (0 <= savedViewIndex v < Z.of_nat (length (savedViews v)))%Z ->
  is_Some (saveView now now' v).
Proof.
  intros Hi. destruct (decide (now - 500 < previousViewTime v)%Z) as [Hw | Hw].
  - rewrite saveView_dropped by exact Hw. eauto.
  - destruct (saveView_recorded now now' v Hw Hi) as (v1 & -> & _). eauto.
Qed.

(** C9. With [savedViewCount = 0], [restoreView] returns at once: the view,
    and so its offsets, factor, index and count, is the one it was given. *)
Theorem restoreView_empty (v : RS_GraphicView) :
  savedViewCount v = 0%Z -> restoreView v = Some v.
Proof. intros H0. unfold restoreView. rewrite decide_True; done. Qed.

(** C8. When the previously recorded view time lies within 500 ms of the
    clock (fewer than 500 ms have passed; at 500 ms the save is recorded),
    [saveView] drops the save: [savedViews], [savedViewIndex] and
    [savedViewCount] keep their values, and the only member written is the
    modified flag of the drawing, if there is one. *)
Theorem saveView_throttled (now now' : Z) (v : RS_GraphicView) :
  (now - previousViewTime v < 500)%Z ->
  exists v' : RS_GraphicView,
    saveView now now' v = Some v'
    /\ savedViews v' = savedViews v
    /\ savedViewIndex v' = savedViewIndex v
    /\ savedViewCount v' = savedViewCount v
    /\ v' = match getGraphic v with
            | Some g => with_container (Some (setModified true g)) v
            | None => v
            end.
Proof.
  intros Hw. exists (setGraphicModified v).
  split; [apply saveView_dropped; lia |].
  unfold setGraphicModified. destruct (getGraphic v); repeat split; reflexivity.
Qed.

(** A recorded save counts one more view, up to the number of slots. *)
Lemma saveView_recorded_count (now now' : Z) (v v1 : RS_GraphicView) :
  ~ (now - 500 < previousViewTime v)%Z ->
  (0 <= savedViewIndex v < Z.of_nat (length (savedViews v)))%Z ->
  saveView now now' v = Some v1 ->
  savedViewCount v1
  = if decide (savedViewCount v < Z.of_nat (length (savedViews v)))%Z
    then (savedViewCount v + 1)%Z else savedViewCount v.
Proof.
  intros Hw Hi. unfold saveView, setGraphicModified.
  destruct (getGraphic v) as [g |]; simpl;
    (rewrite decide_False by lia);
    (rewrite slot_write_Some by (simpl; lia)); simpl;
    rewrite length_insert;
    repeat (destruct (decide _)); simpl;
    intros Hs; apply (inj Some) in Hs; subst v1; simpl; reflexivity || lia.
Qed.

(** C3. When [saveView] records (500 ms or more have passed since the
    previously recorded view, the slot at [savedViewIndex] exists and the
    count of saved views is not negative), the view is read back by the
    next [restoreView], whatever has become of the viewport in between:
    from every state [w] that has the history as [saveView] left it, with
    any offsets and any factor, [restoreView] ends with the offsets and the
    factor that the view had when [saveView] was called; with a container
    set this [restoreView] is what [zoomPrevious] runs. *)
Theorem saveView_restoreView_roundtrip (now now' : Z) (v : RS_GraphicView) :
  (500 <= now - previousViewTime v)%Z ->
  (0 <= savedViewIndex v < Z.of_nat (length (savedViews v)))%Z ->
  (0 <= savedViewCount v)%Z ->
  exists v1 : RS_GraphicView,
    saveView now now' v = Some v1
    /\ forall w : RS_GraphicView,
         savedViews w = savedViews v1 ->
         savedViewIndex w = savedViewIndex v1 ->
         savedViewCount w = savedViewCount v1 ->
         exists v2 : RS_GraphicView,
           restoreView w = Some v2
           /\ offsetX v2 = offsetX v /\ offsetY v2 = offsetY v
           /\ vec_x (factor v2) = vec_x (factor v)
           /\ vec_y (factor v2) = vec_y (factor v)
           /\ (is_Some (container w) -> zoomPrevious w = Some v2).
Proof.
  intros Hw Hi Hc.
  destruct (saveView_recorded now now' v) as (v1 & Hs & Hidx & Hviews & _);
    [lia | exact Hi |].
  assert (Hcount : savedViewCount v1 <> 0%Z).
  { rewrite (saveView_recorded_count now now' v v1) by (lia || assumption).
    destruct (decide _); lia. }
  exists v1. split; [exact Hs |].
  intros w Hwv Hwi Hwc.
  assert (Hrest : exists v2, restoreView w = Some v2
            /\ offsetX v2 = offsetX v /\ offsetY v2 = offsetY v
            /\ factor v2 = factor v).
  { unfold restoreView. rewrite decide_False by (rewrite Hwc; exact Hcount).
    assert (Hback : ((savedViewIndex w + Z.of_nat (length (savedViews w)) - 1)
                      mod Z.of_nat (length (savedViews w)))%Z
                    = savedViewIndex v).
    { rewrite Hwi, Hwv, Hidx, Hviews, length_insert.
      apply ring_back_forth, Hi. }
    destruct (decide _); simpl; rewrite Hback, Hwv, Hviews;
      rewrite slot_read_written by exact Hi; simpl;
      eexists; (split; [reflexivity |]); simpl; auto. }
  destruct Hrest as (v2 & Hr & Hox2 & Hoy2 & Hf2).
  exists v2. rewrite Hf2.
  split; [exact Hr |]. split; [exact Hox2 |]. split; [exact Hoy2 |].
  split; [reflexivity |]. split; [reflexivity |].
  intros [c Hcw]. unfold zoomPrevious. rewrite Hcw. exact Hr.
Qed.

Lemma saveView_inv (now now' : Z) (v : RS_GraphicView) :
  history_inv v ->
  exists v', saveView now now' v = Some v' /\ history_inv v'.
Proof.
  intros (Hlen & Hc & Hi).
  unfold saveView, setGraphicModified, history_inv, history_bounded.
  destruct (getGraphic v) as [g |]; simpl;
    (destruct (decide (now - 500 < previousViewTime v)%Z);
     [eexists; split; [reflexivity | simpl; auto] |]);
    (rewrite slot_write_Some by (simpl; lia)); simpl;
    rewrite length_insert, Hlen;
    pose proof (Z.mod_pos_bound (savedViewIndex v + 1) (Z.of_nat 16));
    repeat (destruct (decide _)); simpl in *;
    eexists; (split; [reflexivity |]); simpl;
    rewrite ?length_insert; repeat split; lia.
Qed.

Lemma restoreView_inv (v : RS_GraphicView) :
  history_inv v -> exists v', restoreView v = Some v' /\ history_inv v'.
Proof.
  intros (Hlen & Hc & Hi). unfold restoreView, history_inv, history_bounded.
  destruct (decide (savedViewCount v = 0)%Z); [eauto 10 |].
  pose proof (Z.mod_pos_bound (savedViewIndex v + Z.of_nat 16 - 1) (Z.of_nat 16)).
  destruct (decide _); simpl; rewrite Hlen;
    (destruct (slot_read_Some (savedViews v)
                ((savedViewIndex v + Z.of_nat 16 - 1) mod Z.of_nat 16)%Z)
      as [s ->]; [lia |]); simpl;
    eexists; (split; [reflexivity |]); simpl; repeat split; lia.
Qed.

(** C2. From a freshly constructed view (sixteen slots, index and count
    zero) every sequence of [saveView] and [restoreView] calls runs through
    and ends in a state with [0 <= savedViewCount <= 16] and
    [0 <= savedViewIndex < 16]. *)
Theorem history_stays_bounded (v0 : RS_GraphicView) (cs : list ViewCall) :
  constructed v0 ->
  exists v : RS_GraphicView,
    runCalls cs v0 = Some v
    /\ (0 <= savedViewCount v <= 16)%Z /\ (0 <= savedViewIndex v < 16)%Z.
Proof.
  intros (Hlen & Hi & Hc).
  assert (Hinv : history_inv v0)
    by (unfold history_inv, history_bounded; rewrite Hi, Hc; repeat split; lia).
  clear Hlen Hi Hc. revert v0 Hinv.
  induction cs as [| c cs IH]; intros v0 Hinv; simpl.
  - exists v0. split; [reflexivity | apply Hinv].
  - assert (Hstep : exists v', call c v0 = Some v' /\ history_inv v').
    { destruct c; simpl; [apply saveView_inv | apply restoreView_inv]; exact Hinv. }
    destruct Hstep as (v' & -> & Hinv'). simpl. apply IH, Hinv'.
Qed.

(** ** Zoom to fit *)

Lemma centerOffsetX_factor (v : RS_GraphicView) :
  factor (centerOffsetX v) = factor v.
Proof.
  unfold centerOffsetX. destruct (container v); [| reflexivity].
  destruct (zoomFrozen v); reflexivity.
Qed.

Lemma centerOffsetY_factor (v : RS_GraphicView) :
  factor (centerOffsetY v) = factor v.
Proof.
  unfold centerOffsetY. destruct (container v); [| reflexivity].
  destruct (zoomFrozen v); reflexivity.
Qed.

(** Both factor setters in a row, zoom not frozen. *)
Lemma setFactorXY_factor (fx fy : R) (v : RS_GraphicView) :
  zoomFrozen v = false ->
  factor (setFactorY fy (setFactorX fx v)) = mkVector (Rabs fx) (Rabs fy).
Proof.
  intros Hz. unfold setFactorX, setFactorY. rewrite Hz. simpl.
  rewrite Hz. reflexivity.
Qed.

(** C4. When the bounding box that [calculateBorders] leaves is at most
    [RS_TOLERANCE] wide and at most [RS_TOLERANCE] high, [zoomAuto]
    returns without a change of the factor, of the offsets or of the view
    history. *)
Theorem zoomAuto_degenerate (now now' : Z) (axis keepAspectRatio : bool)
    (v : RS_GraphicView) (c0 : RS_EntityContainer) :
  0 <= RS_TOLERANCE ->
  container v = Some c0 ->
  vec_x (getSize (calculateBorders c0)) <= RS_TOLERANCE ->
  vec_y (getSize (calculateBorders c0)) <= RS_TOLERANCE ->
  exists v' : RS_GraphicView,
    zoomAuto now now' axis keepAspectRatio v = Some v'
    /\ vec_x (factor v') = vec_x (factor v)
    /\ vec_y (factor v') = vec_y (factor v)
    /\ offsetX v' = offsetX v /\ offsetY v' = offsetY v
    /\ savedViews v' = savedViews v
    /\ savedViewIndex v' = savedViewIndex v
    /\ savedViewCount v' = savedViewCount v.
Proof.
  intros Htol Hc Hx Hy.
  exists (with_container (Some (calculateBorders c0)) v).
  split; [| simpl; repeat split; reflexivity].
  unfold zoomAuto. rewrite Hc.
  unfold getSize, vec_minus in Hx, Hy. simpl in Hx, Hy.
  assert (Hsx : ~ RS_TOLERANCE
                  < Rmax (vec_x (getMax (calculateBorders c0))
                          - vec_x (getMin (calculateBorders c0))) 0)
    by (apply Rle_not_lt, Rmax_lub; lra).
  assert (Hsy : ~ RS_TOLERANCE
                  < Rmax (vec_y (getMax (calculateBorders c0))
                          - vec_y (getMin (calculateBorders c0))) 0)
    by (apply Rle_not_lt, Rmax_lub; lra).
  destruct axis; simpl;
    rewrite !decide_False by (assumption || lra); reflexivity.
Qed.

(** C5. When the bounding box that [calculateBorders] leaves is more than
    [RS_TOLERANCE] wide and high and the zoom is not frozen, a
    [zoomAuto] that keeps the aspect ratio and goes on to set the factors
    (the minimum of the width fit and the height fit lies between
    [RS_TOLERANCE] and [RS_MAXDOUBLE]; in particular whenever the factor
    differs afterwards) ends with [factor.x] and [factor.y] both equal to
    that minimum. It completes when the history index is inside the
    buffer. *)
Theorem zoomAuto_keeps_aspect_ratio (now now' : Z) (axis : bool)
    (v : RS_GraphicView) (c0 : RS_EntityContainer) :
  0 <= RS_TOLERANCE ->
  container v = Some c0 ->
  RS_TOLERANCE < vec_x (getSize (calculateBorders c0)) ->
  RS_TOLERANCE < vec_y (getSize (calculateBorders c0)) ->
  zoomFrozen v = false ->
  let m := Rmin (widthFit v (calculateBorders c0))
                (heightFit v (calculateBorders c0)) in
  (forall v' : RS_GraphicView,
     zoomAuto now now' axis true v = Some v' ->
     RS_TOLERANCE <= m <= RS_MAXDOUBLE \/ factor v' <> factor v ->
     vec_x (factor v') = m /\ vec_y (factor v') = m)
  /\ ((0 <= savedViewIndex v < Z.of_nat (length (savedViews v)))%Z ->
      is_Some (zoomAuto now now' axis true v)).
Proof.
  intros Htol Hc Hx Hy Hz m.
  set (c := calculateBorders c0) in *.
  set (w := with_container (Some c) v).
  assert (Hrun : zoomAuto now now' axis true v
                 = if decide (m < RS_TOLERANCE \/ RS_MAXDOUBLE < m)
                   then Some w
                   else v1 ← saveView now now' w;
                        Some (centerOffsetY (centerOffsetX
                                (setFactorY m (setFactorX m v1))))).
  { unfold zoomAuto. rewrite Hc. fold c. fold w.
    unfold getSize, vec_minus in Hx, Hy. simpl in Hx, Hy.
    assert (Hm : m = Rmin (IZR (getWidth v - borderLeft v - borderRight v)
                           / (vec_x (getMax c) - vec_x (getMin c)))
                          (IZR (getHeight v - borderTop v - borderBottom v)
                           / (vec_y (getMax c) - vec_y (getMin c))))
      by reflexivity.
    destruct axis; simpl; rewrite ?Rmax_left by lra;
      rewrite !decide_True by lra; simpl; rewrite <- Hm;
      destruct (decide (m < RS_TOLERANCE \/ RS_MAXDOUBLE < m)); reflexivity. }
  rewrite Hrun. clear Hrun. split.
  - intros v' Hv' Hgo.
    destruct (decide (m < RS_TOLERANCE \/ RS_MAXDOUBLE < m)) as [Hbad | Hok].
    + simplify_eq. destruct Hgo as [Hin | Hch]; [lra | ].
      exfalso. apply Hch. reflexivity.
    + destruct (saveView now now' w) as [v1 |] eqn:Hs; simpl in Hv'; [| done].
      simplify_eq.
      destruct (saveView_viewport _ _ _ _ Hs) as (_ & _ & _ & Hz1).
      rewrite centerOffsetY_factor, centerOffsetX_factor.
      rewrite setFactorXY_factor by (rewrite Hz1; exact Hz).
      simpl. rewrite Rabs_right by lra. auto.
  - intros Hi.
    destruct (decide (m < RS_TOLERANCE \/ RS_MAXDOUBLE < m)); [eauto |].
    destruct (saveView_is_Some now now' w Hi) as [v1 ->]. simpl. eauto.
Qed.

(** ** Drawing, layer 1 *)

(** Every painter call appends to the log: the log before is a prefix of
    the log after. *)
Lemma setPen_prefix (pen : RS_Pen) (p : RS_Painter) :
  issued p `prefix_of` issued (setPen pen p).
Proof. apply prefix_app_r. reflexivity. Qed.

Lemma drawLine_prefix (a b : RS_Vector) (p : RS_Painter) :
  issued p `prefix_of` issued (drawLine a b p).
Proof. apply prefix_app_r. reflexivity. Qed.

Lemma drawGridPoint_prefix (a : RS_Vector) (p : RS_Painter) :
  issued p `prefix_of` issued (drawGridPoint a p).
Proof. apply prefix_app_r. reflexivity. Qed.

Lemma getPen_prefix (p : RS_Painter) :
  issued p `prefix_of` issued (getPen p).2.
Proof. apply prefix_app_r. reflexivity. Qed.

Lemma drawText_prefix (r : QRect) (s : string) (p : RS_Painter) :
  issued p `prefix_of` issued (drawText r s p).2.
Proof. apply prefix_app_r. reflexivity. Qed.

(** A loop whose body only appends, only appends. *)
Lemma fold_left_prefix {A : Type} (f : RS_Painter -> A -> RS_Painter)
    (l : list A) (p : RS_Painter) :
  (forall q a, issued q `prefix_of` issued (f q a)) ->
  issued p `prefix_of` issued (fold_left f l p).
Proof.
  intros Hf. revert p. induction l as [| a l IH]; intros p; simpl.
  - reflexivity.
  - transitivity (issued (f p a)); [apply Hf | apply IH].
Qed.

Lemma isometricLines_prefix (n : nat) (cmx cmy : Z) (dx dy : R)
    (vp0 vp1 vp2 vp3 : RS_Vector) (p : RS_Painter) :
  issued p `prefix_of`
    issued (isometricLines n cmx cmy dx dy vp0 vp1 vp2 vp3 p).
Proof.
  revert vp0 vp1 vp2 vp3 p.
  induction n as [| n IH]; intros vp0 vp1 vp2 vp3 p; simpl.
  - reflexivity.
  - destruct (decide (Z.of_nat n <= cmx)%Z), (decide (Z.of_nat n <= cmy)%Z);
      (etransitivity; [| apply IH]);
      (etransitivity; [apply drawLine_prefix | apply drawLine_prefix]).
Qed.

Lemma drawGrid_prefix (v : RS_GraphicView) (p p' : RS_Painter) :
  drawGrid v p = Some p' -> issued p `prefix_of` issued p'.
Proof.
  unfold drawGrid. destruct (grid v) as [g |]; [| done].
  unfold mbind, option_bind. cbv beta iota.
  intros Hd. apply (inj Some) in Hd. subst p'.
  etransitivity; [apply setPen_prefix |].
  destruct (bool_decide (gridType v = 1%Z)).
  - match goal with
    | |- _ `prefix_of` issued (fold_left _ _ (fold_left ?f ?l ?q)) =>
        transitivity (issued (fold_left f l q))
    end; apply fold_left_prefix; intros q a;
      apply fold_left_prefix; intros q' i;
      apply drawLine_prefix.
  - apply fold_left_prefix. intros q a. apply drawGridPoint_prefix.
Qed.

Lemma drawMetaGrid_prefix (v v' : RS_GraphicView) (p p' : RS_Painter) :
  drawMetaGrid v p = Some (v', p') ->
  issued p `prefix_of` issued p' /\ is_Some (grid v').
Proof.
  unfold drawMetaGrid. destruct (grid v) as [g0 |]; simpl; [| done].
  set (g := updatePointArray v g0).
  match goal with
  | |- context [fold_left ?f (getMetaX g) ?q] =>
      assert (Hmx : issued p `prefix_of` issued (fold_left f (getMetaX g) q))
  end.
  { etransitivity; [apply setPen_prefix |].
    apply fold_left_prefix. intros q a.
    destruct (isIsometric g);
      [etransitivity; apply drawLine_prefix | apply drawLine_prefix]. }
  destruct (isIsometric g).
  - destruct (decide _).
    + intros Hd. simplify_eq. split; [exact Hmx | simpl; eauto].
    + destruct (getMetaX g !! 0%nat); simpl; [| done].
      destruct (getMetaY g !! 0%nat); simpl; [| done].
      intros Hd. simplify_eq. split; [| simpl; eauto].
      etransitivity; [exact Hmx | apply isometricLines_prefix].
  - intros Hd. simplify_eq. split; [| simpl; eauto].
    etransitivity; [exact Hmx |].
    apply fold_left_prefix. intros q a. apply drawLine_prefix.
Qed.

Lemma drawDraftSign_prefix (v : RS_GraphicView) (p : RS_Painter) :
  issued p `prefix_of` issued (drawDraftSign v p).
Proof.
  unfold drawDraftSign.
  generalize (mkRect 0 0 64 64). generalize (seqZ 1 4). intros l.
  revert p. induction l as [| i l IH]; intros p r; simpl.
  - reflexivity.
  - etransitivity; [| apply IH]. apply drawText_prefix.
Qed.

(** [drawMetaGrid] runs through unless it reads the first meta line of an
    empty list. *)
Lemma drawMetaGrid_is_Some (v : RS_GraphicView) (p : RS_Painter) (g0 : RS_Grid) :
  grid v = Some g0 ->
  getMetaX (updatePointArray v g0) <> [] ->
  is_Some (drawMetaGrid v p).
Proof.
  intros Hg Hmx. unfold drawMetaGrid. rewrite Hg. simpl.
  destruct (isIsometric _); [| eauto].
  destruct (decide _) as [| Hn]; [eauto |].
  destruct (getMetaX (updatePointArray v g0)) as [| x mx]; [done |].
  destruct (getMetaY (updatePointArray v g0)) as [| y my]; simpl; [| eauto].
  exfalso. apply Hn. left. reflexivity.
Qed.

(** Calls appended to the log, all of them with the property [P]. *)
Lemma calls_refl (P : PainterCall -> Prop) (p : RS_Painter) :
  exists calls, issued p = issued p ++ calls /\ Forall P calls.
Proof. exists []. rewrite app_nil_r. split; [reflexivity | constructor]. Qed.

Lemma calls_trans (P : PainterCall -> Prop) (p q r : RS_Painter) :
  (exists calls, issued q = issued p ++ calls /\ Forall P calls) ->
  (exists calls, issued r = issued q ++ calls /\ Forall P calls) ->
  exists calls, issued r = issued p ++ calls /\ Forall P calls.
Proof.
  intros (l1 & H1 & F1) (l2 & H2 & F2). exists (l1 ++ l2).
  rewrite H2, H1, <- app_assoc. split; [reflexivity |].
  apply Forall_app. split; assumption.
Qed.

Lemma calls_one (P : PainterCall -> Prop) (p q : RS_Painter) (c : PainterCall) :
  issued q = issued p ++ [c] -> P c ->
  exists calls, issued q = issued p ++ calls /\ Forall P calls.
Proof. intros Hq Hc. exists [c]. split; [exact Hq | repeat constructor; exact Hc]. Qed.

(** [drawDraftSign] issues text calls only. *)
Lemma drawDraftSign_calls (P : PainterCall -> Prop) (v : RS_GraphicView)
    (p : RS_Painter) :
  (forall r s, P (DrawText r s)) ->
  exists calls : list PainterCall,
    issued (drawDraftSign v p) = issued p ++ calls /\ Forall P calls.
Proof.
  intros HP. unfold drawDraftSign.
  generalize (mkRect 0 0 64 64). generalize (seqZ 1 4). intros l.
  revert p. induction l as [| i l IH]; intros p r; simpl.
  - apply calls_refl.
  - eapply calls_trans; [| apply IH].
    eapply calls_one; [reflexivity | apply HP].
Qed.

(** C6. Outside the print preview and with the grid on, the painter calls
    of one [drawLayer1] are: what was issued before, then calls [pre] that
    draw no line and no grid point, then the calls of [drawMetaGrid], then
    the calls of [drawGrid], then calls [post] that draw no line and no
    grid point either. Lines and grid points are all that [drawMetaGrid]
    and [drawGrid] draw, so the meta grid and the grid are drawn once each,
    and every call of [drawMetaGrid] comes before every call of
    [drawGrid]. The function runs through when the updated grid has a meta
    line in x. *)
Theorem drawLayer1_metaGrid_before_grid (logicalDotsPerInch : R)
    (v : RS_GraphicView) (p : RS_Painter) :
  printPreview v = false ->
  is_Some (grid v) ->
  isGridOn v = true ->
  (forall (v' : RS_GraphicView) (p' : RS_Painter),
     drawLayer1 logicalDotsPerInch v p = Some (v', p') ->
     exists (p0 : RS_Painter) (v1 : RS_GraphicView) (p1 p2 : RS_Painter)
            (pre M G post : list PainterCall),
       issued p0 = issued p ++ pre
       /\ Forall (fun c => isGridCall c = false) pre
       /\ drawMetaGrid v p0 = Some (v1, p1)
       /\ issued p1 = issued p0 ++ M
       /\ drawGrid v1 p1 = Some p2
       /\ issued p2 = issued p1 ++ G
       /\ Forall (fun c => isGridCall c = false) post
       /\ issued p' = issued p ++ pre ++ M ++ G ++ post)
  /\ ((forall g0 : RS_Grid,
         grid v = Some g0 -> getMetaX (updatePointArray v g0) <> []) ->
      is_Some (drawLayer1 logicalDotsPerInch v p)).
Proof.
  intros Hpp Hg Hon. unfold drawLayer1. rewrite Hpp.
  rewrite (bool_decide_eq_true_2 _ Hg), Hon.
  unfold getPen, andb. cbv beta iota zeta.
  set (isHiDpi := bool_decide (96 < Rtrunc logicalDotsPerInch)%Z).
  set (pg := mkPainter (painterPen p) (issued p ++ [GetPen])).
  set (p0 := if isHiDpi then setPen _ pg else pg).
  set (P := fun c : PainterCall => isGridCall c = false).
  assert (Hp0 : exists pre, issued p0 = issued p ++ pre /\ Forall P pre).
  { apply (calls_trans P p pg p0).
    - apply (calls_one P p pg GetPen); reflexivity.
    - subst p0. destruct isHiDpi; [| apply calls_refl].
      eapply calls_one; reflexivity. }
  split.
  - intros v' p'.
    destruct (drawMetaGrid v p0) as [[v1 p1] |] eqn:Hm; [| done].
    step_bind.
    destruct (drawGrid v1 p1) as [p2 |] eqn:Hd; [| done].
    step_bind. intros Hrun. apply (inj Some) in Hrun.
    injection Hrun as Hv Hp. subst v' p'.
    destruct (drawMetaGrid_prefix _ _ _ _ Hm) as [[M HM] _].
    destruct (drawGrid_prefix _ _ _ Hd) as [G HG].
    destruct Hp0 as (pre & Hpre & Fpre).
    match goal with
    | |- context [issued ?q = issued p ++ _ ++ _ ++ _ ++ _] =>
        assert (Hpost : exists post, issued q = issued p2 ++ post
                                     /\ Forall P post)
    end.
    { set (q' := if draftMode v1 then drawDraftSign v1 p2 else p2).
      apply (calls_trans P p2 q').
      - subst q'. destruct (draftMode v1); [| apply calls_refl].
        apply drawDraftSign_calls. intros r s. reflexivity.
      - destruct isHiDpi; [| apply calls_refl].
        eapply calls_one; reflexivity. }
    destruct Hpost as (post & Hpost & Fpost).
    exists p0, v1, p1, p2, pre, M, G, post.
    split; [exact Hpre |]. split; [exact Fpre |]. split; [exact Hm |].
    split; [exact HM |]. split; [exact Hd |]. split; [exact HG |].
    split; [exact Fpost |].
    rewrite Hpost, HG, HM, Hpre, <- !app_assoc. reflexivity.
  - intros Hmx. destruct Hg as [g0 Hg0].
    destruct (drawMetaGrid_is_Some v p0 g0 Hg0 (Hmx g0 Hg0)) as [[v1 p1] Hm].
    rewrite Hm. step_bind.
    destruct (drawMetaGrid_prefix _ _ _ _ Hm) as [_ [g1 Hg1]].
    unfold drawGrid. rewrite Hg1. step_bind. eauto.
Qed.

End Properties.

(** ** The model on sample values *)

Example toGui_sample :
  toGuiX sampleView 5 = 20 /\ toGuiY sampleView 5 = 580
  /\ toGraphX sampleView 20 = 5 /\ toGraphY sampleView 580 = 5.
Proof.
  unfold toGuiX, toGuiY, toGraphX, toGraphY. simpl.
  rewrite ?opp_IZR, ?plus_IZR, ?minus_IZR. lra.
Qed.

Example saveView_sample :
  exists v : RS_GraphicView,
    saveView 1000 1001 sampleView = Some v
    /\ savedViews v !! 0%nat = Some (10%Z, 20%Z, mkVector 2 2)
    /\ savedViewIndex v = 1%Z /\ savedViewCount v = 1%Z
    /\ previousViewTime v = 1001%Z /\ previous_zoom_state v = [true]
    /\ (modified <$> container v) = Some true.
Proof. eexists. split; [vm_compute; reflexivity |]. vm_compute. repeat split. Qed.

Example restoreView_sample :
  exists v : RS_GraphicView,
    (saveView 1000 1001 (with_offsetX 77 sampleView)
       ≫= (fun v1 => restoreView (with_offsetX 5 v1))) = Some v
    /\ offsetX v = 77%Z /\ savedViewIndex v = 0%Z /\ savedViewCount v = 0%Z
    /\ previous_zoom_state v = [true; false].
Proof. eexists. split; [vm_compute; reflexivity |]. vm_compute. repeat split. Qed.

(** The integer part of a real between two consecutive integers. *)
Lemma Int_part_between (r : R) (k : Z) :
  IZR k <= r < IZR k + 1 -> Int_part r = k.
Proof.
  intros [Hlo Hhi]. unfold Int_part.
  rewrite <- (tech_up r (k + 1)); [lia | |]; rewrite plus_IZR; lra.
Qed.

(** [(int)] of a double that holds an integer. *)
Lemma Rtrunc_IZR (z : Z) : Rtrunc (IZR z) = z.
Proof.
  unfold Rtrunc. destruct (decide (0 <= IZR z)).
  - apply Int_part_between. lra.
  - rewrite <- opp_IZR, (Int_part_between _ (- z)); [lia | lra].
Qed.

Example Rtrunc_sample :
  Rtrunc (5 / 2) = 2%Z /\ Rtrunc (- (5 / 2)) = (-2)%Z.
Proof.
  unfold Rtrunc. split.
  - rewrite decide_True by lra. apply Int_part_between. lra.
  - rewrite decide_False by lra.
    rewrite (Int_part_between _ 2); [reflexivity | lra].
Qed.

Example std_round_sample :
  std_round (5 / 2) = 3 /\ std_round (- (5 / 2)) = - 3 /\ std_round (12 / 5) = 2.
Proof.
  unfold std_round. repeat split.
  - rewrite decide_True by lra.
    rewrite (Int_part_between _ 3); [reflexivity | lra].
  - rewrite decide_False by lra.
    rewrite (Int_part_between _ 3); [reflexivity | lra].
  - rewrite decide_True by lra.
    rewrite (Int_part_between _ 2); [reflexivity | lra].
Qed.

Example std_remainder_sample :
  std_remainder 5 2 = 1 /\ std_remainder 7 2 = - 1 /\ std_remainder 9 4 = 1.
Proof.
  unfold std_remainder, nearest_even. repeat split.
  - rewrite (Int_part_between (5 / 2) 2) by lra.
    rewrite decide_False, decide_False by lra. simpl. lra.
  - rewrite (Int_part_between (7 / 2) 3) by lra.
    rewrite decide_False, decide_False by lra. simpl.
    rewrite plus_IZR. lra.
  - rewrite (Int_part_between (9 / 4) 2) by lra.
    rewrite decide_True by lra. lra.
Qed.

Example zoomAuto_sample :
  exists v : RS_GraphicView,
    zoomAuto (H := sampleExternals) 1000 1001 false true sampleView = Some v
    /\ factor v = mkVector 8 8 /\ offsetX v = 5%Z /\ offsetY v = 105%Z
    /\ savedViews v !! 0%nat = Some (10%Z, 20%Z, mkVector 2 2)
    /\ savedViewCount v = 1%Z.
Proof.
  unfold zoomAuto. simpl.
  rewrite !decide_True by lra. simpl.
  assert (Hm : Rmin (IZR (810 - 5 - 5) / (100 - 0)) (IZR (610 - 5 - 5) / (50 - 0)) = 8).
  { rewrite !minus_IZR, Rmin_left by lra. lra. }
  rewrite Hm. rewrite !decide_False by lra. simpl.
  change (saveView 1000 1001 _) with (saveView 1000 1001 sampleView).
  eexists. split; [vm_compute saveView; reflexivity |].
  unfold centerOffsetY, centerOffsetX, setFactorY, setFactorX. simpl.
  rewrite !Rabs_right by lra. repeat split.
  - replace ((IZR (810 - 5 - 5) - (100 - 0) * 8) / 2 - 0 * 8) with (IZR 0)
      by (rewrite !minus_IZR; lra).
    rewrite Rtrunc_IZR. reflexivity.
  - replace ((IZR (610 - 5 - 5) - (50 - 0) * 8) / 2 - 0 * 8) with (IZR 100)
      by (rewrite !minus_IZR; lra).
    rewrite Rtrunc_IZR. reflexivity.
Qed.

(** Each iteration of the isometric loop draws two lines. *)
Lemma isometricLines_calls (n : nat) (cmx cmy : Z) (dx dy : R)
    (vp0 vp1 vp2 vp3 : RS_Vector) (p : RS_Painter) :
  length (issued (isometricLines n cmx cmy dx dy vp0 vp1 vp2 vp3 p))
  = (length (issued p) + 2 * n)%nat.
Proof.
  revert vp0 vp1 vp2 vp3 p.
  induction n as [| n IH]; intros vp0 vp1 vp2 vp3 p; simpl.
  - lia.
  - destruct (decide (Z.of_nat n <= cmx)%Z), (decide (Z.of_nat n <= cmy)%Z);
      rewrite IH; simpl; rewrite !length_app; simpl; lia.
Qed.

Example isometricLines_sample :
  issued (isometricLines 2 0 1 10 20 (mkVector 0 0) (mkVector 0 0)
            (mkVector 100 0) (mkVector 100 0) samplePainter)
  = [DrawLine (mkVector 0 (0 - 20)) (mkVector 0 (0 - 20));
     DrawLine (mkVector (100 - 10) 0) (mkVector (100 - 10) 0);
     DrawLine (mkVector (0 + 10) (0 - 20)) (mkVector 0 (0 - 20 - 20));
     DrawLine (mkVector (100 - 10) (0 - 20)) (mkVector (100 - 10 - 10) 0)].
Proof. reflexivity. Qed.

Example drawLayer1_sample :
  exists (v : RS_GraphicView) (p : RS_Painter),
    drawLayer1 (H := sampleExternals) 96 sampleView samplePainter = Some (v, p)
    /\ issued p
       = [GetPen;
          SetPen (mkPen (RGB 64 64 64) Width01 DotLineTiny);
          DrawLine (mkVector (toGuiX sampleView 0) 0)
                   (mkVector (toGuiX sampleView 0) 610);
          DrawLine (mkVector (toGuiX sampleView 100) 0)
                   (mkVector (toGuiX sampleView 100) 610);
          DrawLine (mkVector 0 (toGuiY sampleView 0))
                   (mkVector 810 (toGuiY sampleView 0));
          DrawLine (mkVector 0 (toGuiY sampleView 100))
                   (mkVector 810 (toGuiY sampleView 100));
          SetPen (mkPen (RGB 128 128 128) Width00 SolidLine);
          DrawGridPoint (toGui sampleView (mkVector 0 0));
          DrawGridPoint (toGui sampleView (mkVector 10 0))].
Proof.
  unfold drawLayer1. change (printPreview sampleView) with false. cbv iota.
  rewrite Rtrunc_IZR.
  eexists _, _. split; reflexivity.
Qed.

(** ** The theorems at sample values *)

Lemma toGui_toGraph_identity_sample :
  vec_x (factor sampleView) <> 0 /\ vec_y (factor sampleView) <> 0
  /\ toGuiX sampleView (toGraphX sampleView 7) = IZR 7
  /\ toGuiY sampleView (toGraphY sampleView 9) = IZR 9.
Proof.
  assert (Hx : vec_x (factor sampleView) <> 0) by (simpl; lra).
  assert (Hy : vec_y (factor sampleView) <> 0) by (simpl; lra).
  split; [exact Hx | split; [exact Hy |]].
  exact (toGui_toGraph_identity sampleView 7 9 Hx Hy).
Defined.

Lemma history_stays_bounded_sample :
  constructed sampleView
  /\ exists v : RS_GraphicView,
       runCalls [CallSaveView 1000 1001; CallRestoreView; CallRestoreView;
                 CallSaveView 2000 2001] sampleView = Some v
       /\ (0 <= savedViewCount v <= 16)%Z /\ (0 <= savedViewIndex v < 16)%Z.
Proof.
  assert (Hc : constructed sampleView) by (repeat split; reflexivity).
  split; [exact Hc |]. exact (history_stays_bounded sampleView _ Hc).
Defined.

Lemma saveView_restoreView_roundtrip_sample :
  (500 <= 1000 - previousViewTime sampleView)%Z
  /\ (0 <= savedViewIndex sampleView
      < Z.of_nat (length (savedViews sampleView)))%Z
  /\ (0 <= savedViewCount sampleView)%Z
  /\ exists v1 v2 : RS_GraphicView,
       saveView 1000 1001 sampleView = Some v1
       /\ restoreView
            (with_factor (mkVector 9 7)
               (with_offsetY 88 (with_offsetX 77 v1))) = Some v2
       /\ offsetX v2 = 10%Z /\ offsetY v2 = 20%Z
       /\ vec_x (factor v2) = 2 /\ vec_y (factor v2) = 2.
Proof.
  assert (Hw : (500 <= 1000 - previousViewTime sampleView)%Z)
    by (vm_compute; discriminate).
  assert (Hi : (0 <= savedViewIndex sampleView
                < Z.of_nat (length (savedViews sampleView)))%Z)
    by (vm_compute; split; [discriminate | reflexivity]).
  assert (Hc : (0 <= savedViewCount sampleView)%Z)
    by (vm_compute; discriminate).
  split; [exact Hw | split; [exact Hi | split; [exact Hc |]]].
  destruct (saveView_restoreView_roundtrip 1000 1001 sampleView Hw Hi Hc)
    as (v1 & Hs & Hall).
  destruct (Hall (with_factor (mkVector 9 7)
                    (with_offsetY 88 (with_offsetX 77 v1)))
              eq_refl eq_refl eq_refl)
    as (v2 & Hr & Hox & Hoy & Hfx & Hfy & _).
  exists v1, v2.
  split; [exact Hs |]. split; [exact Hr |]. split; [exact Hox |].
  split; [exact Hoy |]. split; [exact Hfx | exact Hfy].
Defined.

Lemma zoomAuto_degenerate_sample :
  let v := with_container (Some samplePoint) sampleView in
  exists v' : RS_GraphicView,
    zoomAuto (H := sampleExternals) 1000 1001 true true v = Some v'
    /\ vec_x (factor v') = vec_x (factor v)
    /\ vec_y (factor v') = vec_y (factor v)
    /\ offsetX v' = offsetX v /\ offsetY v' = offsetY v
    /\ savedViews v' = savedViews v
    /\ savedViewIndex v' = savedViewIndex v
    /\ savedViewCount v' = savedViewCount v.
Proof.
  intros v.
  apply (zoomAuto_degenerate (E := sampleExternals) 1000 1001 true true v
           samplePoint); simpl; solve [reflexivity | lra].
Defined.

Lemma zoomAuto_keeps_aspect_ratio_sample :
  Rmin (widthFit sampleView sampleDrawing) (heightFit sampleView sampleDrawing)
  = 8
  /\ exists v' : RS_GraphicView,
       zoomAuto (H := sampleExternals) 1000 1001 false true sampleView = Some v'
       /\ vec_x (factor v') = 8 /\ vec_y (factor v') = 8.
Proof.
  assert (Hm : Rmin (widthFit sampleView sampleDrawing)
                    (heightFit sampleView sampleDrawing) = 8).
  { unfold widthFit, heightFit. simpl.
    rewrite !minus_IZR, Rmin_left by lra. lra. }
  assert (Htol : 0 <= RS_TOLERANCE (Externals := sampleExternals))
    by (simpl; lra).
  assert (Hx : RS_TOLERANCE (Externals := sampleExternals)
               < vec_x (getSize (calculateBorders (Externals := sampleExternals)
                                   sampleDrawing)))
    by (simpl; lra).
  assert (Hy : RS_TOLERANCE (Externals := sampleExternals)
               < vec_y (getSize (calculateBorders (Externals := sampleExternals)
                                   sampleDrawing)))
    by (simpl; lra).
  destruct (zoomAuto_keeps_aspect_ratio (E := sampleExternals) 1000 1001 false
              sampleView sampleDrawing Htol eq_refl Hx Hy eq_refl)
    as [Hfactors Hruns].
  split; [exact Hm |].
  destruct Hruns as [v' Hv']; [vm_compute; split; [discriminate | reflexivity] |].
  exists v'. split; [exact Hv' |].
  rewrite <- Hm. apply Hfactors; [exact Hv' |].
  left. change (calculateBorders sampleDrawing) with sampleDrawing.
  rewrite Hm. simpl. lra.
Defined.

Lemma drawLayer1_metaGrid_before_grid_sample :
  printPreview sampleView = false
  /\ is_Some (grid sampleView)
  /\ isGridOn sampleView = true
  /\ is_Some (drawLayer1 (H := sampleExternals) 96 sampleView samplePainter)
  /\ forall (v' : RS_GraphicView) (p' : RS_Painter),
       drawLayer1 (H := sampleExternals) 96 sampleView samplePainter
       = Some (v', p') ->
       exists (p0 : RS_Painter) (v1 : RS_GraphicView) (p1 p2 : RS_Painter)
              (pre M G post : list PainterCall),
         issued p0 = issued samplePainter ++ pre
         /\ Forall (fun c => isGridCall c = false) pre
         /\ drawMetaGrid (H := sampleExternals) sampleView p0 = Some (v1, p1)
         /\ issued p1 = issued p0 ++ M
         /\ drawGrid v1 p1 = Some p2
         /\ issued p2 = issued p1 ++ G
         /\ Forall (fun c => isGridCall c = false) post
         /\ issued p' = issued samplePainter ++ pre ++ M ++ G ++ post.
Proof.
  assert (Hpp : printPreview sampleView = false) by reflexivity.
  assert (Hg : is_Some (grid sampleView)) by (exists sampleGrid; reflexivity).
  assert (Hon : isGridOn sampleView = true) by reflexivity.
  destruct (drawLayer1_metaGrid_before_grid (E := sampleExternals) 96
              sampleView samplePainter Hpp Hg Hon) as [Horder Hruns].
  split; [exact Hpp | split; [exact Hg | split; [exact Hon |]]].
  split; [| exact Horder].
  apply Hruns. intros g0 Hg0. injection Hg0 as <-. simpl. discriminate.
Defined.

Lemma toGui_orientation_sample :
  toGuiY sampleView 1 > toGuiY sampleView 2
  /\ toGuiX sampleView 1 < toGuiX sampleView 2.
Proof.
  destruct (toGui_orientation sampleView) as [Hy Hx].
  split; [apply Hy | apply Hx]; simpl; lra.
Defined.

(** C7, in binary64: the order is not strict. With [factor.y = 1],
    [getHeight() = 600] and [offsetY = 0], the model coordinates [0] and
    [0x1.6849b86a12b9bp-47] (the double of [1e-14]) differ, and [toGuiY]
    maps both to [600]: the sum [-1e-14 + 600] rounds to [600]. With
    [factor.x = 1] and [offsetX = 600], [toGuiX] maps both to [600] as
    well. *)
Lemma toGui_binary64_not_strict :
  let y1 := 0%float in
  let y2 := 0x1.6849b86a12b9bp-47%float in
  PrimFloat.ltb 0 1 = true
  /\ PrimFloat.ltb y1 y2 = true
  /\ PrimFloat.eqb (toGuiY_binary64 1 600 0 y1) 600 = true
  /\ PrimFloat.eqb (toGuiY_binary64 1 600 0 y2) 600 = true
  /\ PrimFloat.ltb (toGuiY_binary64 1 600 0 y2) (toGuiY_binary64 1 600 0 y1)
     = false
  /\ PrimFloat.eqb (toGuiX_binary64 1 600 y1) 600 = true
  /\ PrimFloat.eqb (toGuiX_binary64 1 600 y2) 600 = true
  /\ PrimFloat.ltb (toGuiX_binary64 1 600 y1) (toGuiX_binary64 1 600 y2)
     = false.
Proof. vm_compute. repeat split. Qed.

Lemma saveView_throttled_sample :
  (100 - previousViewTime sampleView < 500)%Z
  /\ exists v' : RS_GraphicView,
       saveView 100 101 sampleView = Some v'
       /\ savedViews v' = savedViews sampleView
       /\ savedViewIndex v' = savedViewIndex sampleView
       /\ savedViewCount v' = savedViewCount sampleView
       /\ v' = match getGraphic sampleView with
               | Some g => with_container (Some (setModified true g)) sampleView
               | None => sampleView
               end.
Proof.
  assert (Hw : (100 - previousViewTime sampleView < 500)%Z)
    by (vm_compute; reflexivity).
  split; [exact Hw |]. exact (saveView_throttled 100 101 sampleView Hw).
Defined.

Lemma restoreView_empty_sample :
  savedViewCount sampleView = 0%Z /\ restoreView sampleView = Some sampleView.
Proof.
  split; [reflexivity |]. apply (restoreView_empty sampleView). reflexivity.
Defined.

Lemma setFactor_abs_and_freeze_sample :
  vec_x (factor (setFactorX (-3) sampleView)) = Rabs (-3)
  /\ factor (setFactorX (-3) (freezeZoom true sampleView)) = mkVector 2 2.
Proof.
  split.
  - destruct (setFactor_abs_and_freeze sampleView (-3)) as [Hoff _].
    apply Hoff. reflexivity.
  - destruct (setFactor_abs_and_freeze (freezeZoom true sampleView) (-3))
      as (_ & Hon & _).
    apply Hon. reflexivity.
Defined.

(** * Further properties *)

Section MoreProperties.

Context `{E : Externals}.

(** ** Distances *)

(** [(int)] moves a double by less than one, towards zero. *)
Lemma Rtrunc_close (d : R) : Rabs (IZR (Rtrunc d) - d) < 1.
Proof.
  unfold Rtrunc. destruct (decide (0 <= d)).
  - destruct (base_Int_part d) as [Hle Hgt].
    apply Rabs_def1; lra.
  - destruct (base_Int_part (- d)) as [Hle Hgt].
    rewrite opp_IZR. apply Rabs_def1; lra.
Qed.

(** The division of ints by two moves the half by at most one half. *)
Lemma quot2_close (n : Z) : - / 2 <= IZR (n ÷ 2) - IZR n / 2 <= / 2.
Proof.
  pose proof (Z.quot_rem' n 2) as Hn.
  assert (Hr : (-1 <= Z.rem n 2 <= 1)%Z).
  { pose proof (Z.rem_bound_abs n 2). lia. }
  assert (Hn' : IZR n = 2 * IZR (n ÷ 2) + IZR (Z.rem n 2)).
  { rewrite Hn at 1. rewrite plus_IZR, mult_IZR. reflexivity. }
  destruct Hr as [Hlo Hhi]. apply IZR_le in Hlo, Hhi. lra.
Qed.

(** What [(int)] gives where it is defined. *)
Lemma int_cast_Some (d : R) (z : Z) :
  int_cast d = Some z -> z = Rtrunc d /\ (INT_MIN <= z <= INT_MAX)%Z.
Proof.
  unfold int_cast. cbv zeta.
  destruct (decide (INT_MIN <= Rtrunc d <= INT_MAX)%Z) as [Hr | Hr];
    intros Hz; [| discriminate].
  apply (inj Some) in Hz. subst z. split; [reflexivity | exact Hr].
Qed.




(** ** Panning and scrolling *)


(** X4. Pans add up: two pans in a row are the pan by the sums, so the
    opposite pan undoes a pan; this holds whether or not the zoom is
    frozen. *)
Theorem zoomPan_compose (a b c d : Z) (v : RS_GraphicView) :
  zoomPan a b (zoomPan c d v) = zoomPan (c + a) (d + b) v
  /\ zoomPan (- a) (- b) (zoomPan a b v) = v.
Proof.
  unfold zoomPan, with_offsetX, with_offsetY. destruct v. simpl.
  split; f_equal; lia.
Qed.

(** X5. A scroll is a pan by 50 pixels, and scrolling in opposite
    directions, in either order, gives the view back. *)
Theorem zoomScroll_pan (v : RS_GraphicView) :
  zoomScroll Up v = zoomPan 0 50 v
  /\ zoomScroll Down v = zoomPan 0 (-50) v
  /\ zoomScroll Right v = zoomPan 50 0 v
  /\ zoomScroll Left v = zoomPan (-50) 0 v
  /\ zoomScroll Down (zoomScroll Up v) = v
  /\ zoomScroll Up (zoomScroll Down v) = v
  /\ zoomScroll Left (zoomScroll Right v) = v
  /\ zoomScroll Right (zoomScroll Left v) = v.
Proof.
  unfold zoomScroll, zoomPan, with_offsetX, with_offsetY. destruct v. simpl.
  repeat split; f_equal; lia.
Qed.

(** ** Zooming along one axis *)




(** ** Zoom to a window *)

(** Sorting two coordinates does not depend on their order. *)
Lemma sort_pair_sym (a b : R) :
  (if decide (b < a) then (b, a) else (a, b))
  = (if decide (a < b) then (a, b) else (b, a)).
Proof.
  destruct (decide (b < a)), (decide (a < b)); try reflexivity; try lra.
  assert (a = b) by lra. subst. reflexivity.
Qed.

(** [saveView] leaves the size of the view and the container's box. *)
Lemma saveView_size (now now' : Z) (v v' : RS_GraphicView) :
  saveView now now' v = Some v' ->
  getWidth v' = getWidth v /\ getHeight v' = getHeight v.
Proof.
  unfold saveView, setGraphicModified. intros Hs.
  destruct (getGraphic v); simpl in Hs;
    (destruct (decide _) in Hs; [by simplify_eq |]);
    (destruct (slot_write _ _ _) in Hs; simpl in Hs; [| done]);
    repeat (destruct (decide _) in Hs); by simplify_eq.
Qed.

(** X8. The two corners of [zoomWindow] can be given in either order, and
    the other diagonal of the same rectangle gives the same result. *)
Theorem zoomWindow_corners (now now' : Z) (v1 v2 : RS_Vector) (keep : bool)
    (v : RS_GraphicView) :
  zoomWindow now now' v1 v2 keep v = zoomWindow now now' v2 v1 keep v
  /\ zoomWindow now now' v1 v2 keep v
     = zoomWindow now now' (mkVector (vec_x v1) (vec_y v2))
         (mkVector (vec_x v2) (vec_y v1)) keep v.
Proof.
  unfold zoomWindow. simpl. split.
  - rewrite (sort_pair_sym (vec_x v1) (vec_x v2)).
    rewrite (sort_pair_sym (vec_y v1) (vec_y v2)). reflexivity.
  - rewrite (sort_pair_sym (vec_y v1) (vec_y v2)). reflexivity.
Qed.

(** What [zoomWindow] returns: the view it was given, or a view with the
    offsets computed from the pixel borders of the sorted window. *)
Lemma zoomWindow_result (now now' : Z) (v1 v2 : RS_Vector) (keep : bool)
    (v v' : RS_GraphicView) :
  zoomWindow now now' v1 v2 keep v = Some v' ->
  v' = v
  \/ exists zx zy : R,
       factor v' = mkVector (Rabs zx) (Rabs zy)
       /\ (keep = true -> getWidth v <> 0%Z -> getHeight v <> 0%Z -> zx = zy)
       /\ getWidth v' = getWidth v /\ getHeight v' = getHeight v
       /\ offsetX v'
          = (- Rtrunc (Rmin (vec_x v1) (vec_x v2) * Rabs zx)
             + (getWidth v - Rtrunc (Rmax (vec_x v1) (vec_x v2) * Rabs zx)
                + Rtrunc (Rmin (vec_x v1) (vec_x v2) * Rabs zx)) ÷ 2)%Z
       /\ offsetY v'
          = (- Rtrunc (Rmax (vec_y v1) (vec_y v2) * Rabs zy)
             + (getHeight v - Rtrunc (Rmin (vec_y v1) (vec_y v2) * Rabs zy)
                + Rtrunc (Rmax (vec_y v1) (vec_y v2) * Rabs zy)) ÷ 2)%Z.
Proof.
  unfold zoomWindow. simpl.
  assert (Hsort : forall a b : R,
            (if decide (b < a) then (b, a) else (a, b)) = (Rmin a b, Rmax a b)).
  { intros a b. unfold Rmin, Rmax.
    destruct (decide (b < a)), (Rle_dec a b); try reflexivity; lra. }
  rewrite !Hsort. clear Hsort.
  set (x1 := Rmin (vec_x v1) (vec_x v2)). set (x2 := Rmax (vec_x v1) (vec_x v2)).
  set (y1 := Rmin (vec_y v1) (vec_y v2)). set (y2 := Rmax (vec_y v1) (vec_y v2)).
  set (zx0 := if decide (lit_1e_6 < x2 - x1) then IZR (getWidth v) / (x2 - x1)
              else 480).
  set (zy0 := if decide (lit_1e_6 < y2 - y1) then IZR (getHeight v) / (y2 - y1)
              else 640).
  match goal with
  | |- context [let '(a, b) := ?z in _] => set (zs := z)
  end.
  assert (Hiso : keep = true -> getWidth v <> 0%Z -> getHeight v <> 0%Z ->
                 zs.1 = zs.2).
  { intros -> Hw Hh. subst zs.
    destruct (decide (zx0 < zy0)).
    - rewrite decide_True by exact Hw. reflexivity.
    - rewrite decide_True by exact Hh. reflexivity. }
  destruct zs as [zx zy]. simpl in Hiso.
  unfold int_cast.
  destruct (decide (INT_MIN <= Rtrunc (x1 * Rabs zx) <= INT_MAX)%Z);
    [| intros Hn; discriminate Hn].
  destruct (decide (INT_MIN <= Rtrunc (y2 * Rabs zy) <= INT_MAX)%Z);
    [| intros Hn; discriminate Hn].
  destruct (decide (INT_MIN <= Rtrunc (x2 * Rabs zx) <= INT_MAX)%Z);
    [| intros Hn; discriminate Hn].
  destruct (decide (INT_MIN <= Rtrunc (y1 * Rabs zy) <= INT_MAX)%Z);
    [| intros Hn; discriminate Hn].
  simpl.
  destruct (decide (_ \/ _)) as [Hlim | Hlim];
    [intros Heq; apply (inj Some) in Heq; subst v'; left; reflexivity |].
  destruct (saveView now now' v) as [w |] eqn:Hs; simpl; [| done].
  intros Heq. apply (inj Some) in Heq. subst v'. right. exists zx, zy.
  destruct (saveView_size _ _ _ _ Hs) as [Hw Hh].
  simpl. rewrite Hw, Hh. repeat split; try reflexivity. exact Hiso.
Qed.

(** X9. Whenever [zoomWindow] changes the view, the new factors are not
    negative, and with [keepAspectRatio], a width and a height of the view
    that are not zero, they are equal. *)
Theorem zoomWindow_factors (now now' : Z) (v1 v2 : RS_Vector) (keep : bool)
    (v v' : RS_GraphicView) :
  zoomWindow now now' v1 v2 keep v = Some v' ->
  v' <> v ->
  0 <= vec_x (factor v') /\ 0 <= vec_y (factor v')
  /\ (keep = true -> getWidth v <> 0%Z -> getHeight v <> 0%Z ->
      vec_x (factor v') = vec_y (factor v')).
Proof.
  intros Hz Hne.
  destruct (zoomWindow_result _ _ _ _ _ _ _ Hz)
    as [-> | (zx & zy & Hf & Hiso & _)]; [done |].
  rewrite Hf. simpl. split; [apply Rabs_pos | split; [apply Rabs_pos |]].
  intros Hk Hw Hh. rewrite (Hiso Hk Hw Hh). reflexivity.
Qed.

(** X10. Whenever [zoomWindow] changes the view, the centre of the window
    lands on the centre of the view, to within a pixel and a half in each
    direction. *)
Theorem zoomWindow_centres (now now' : Z) (v1 v2 : RS_Vector) (keep : bool)
    (v v' : RS_GraphicView) :
  zoomWindow now now' v1 v2 keep v = Some v' ->
  v' <> v ->
  Rabs (toGuiX v' ((vec_x v1 + vec_x v2) / 2) - IZR (getWidth v) / 2) < 3 / 2
  /\ Rabs (toGuiY v' ((vec_y v1 + vec_y v2) / 2) - IZR (getHeight v) / 2)
     < 3 / 2.
Proof.
  intros Hz Hne.
  destruct (zoomWindow_result _ _ _ _ _ _ _ Hz)
    as [-> | (zx & zy & Hf & _ & Hw & Hh & Hox & Hoy)]; [done |].
  unfold toGuiX, toGuiY. rewrite Hf, Hox, Hoy, Hh. simpl.
  assert (Hsumx : vec_x v1 + vec_x v2
                  = Rmin (vec_x v1) (vec_x v2) + Rmax (vec_x v1) (vec_x v2))
    by (unfold Rmin, Rmax; destruct (Rle_dec _ _); lra).
  assert (Hsumy : vec_y v1 + vec_y v2
                  = Rmin (vec_y v1) (vec_y v2) + Rmax (vec_y v1) (vec_y v2))
    by (unfold Rmin, Rmax; destruct (Rle_dec _ _); lra).
  rewrite Hsumx, Hsumy.
  set (a := Rmin (vec_x v1) (vec_x v2) * Rabs zx).
  set (b := Rmax (vec_x v1) (vec_x v2) * Rabs zx).
  set (c := Rmin (vec_y v1) (vec_y v2) * Rabs zy).
  set (d := Rmax (vec_y v1) (vec_y v2) * Rabs zy).
  pose proof (Rtrunc_close a) as Ha. pose proof (Rtrunc_close b) as Hb.
  pose proof (Rtrunc_close c) as Hc. pose proof (Rtrunc_close d) as Hd.
  pose proof (quot2_close (getWidth v - Rtrunc b + Rtrunc a)) as Hqx.
  pose proof (quot2_close (getHeight v - Rtrunc c + Rtrunc d)) as Hqy.
  rewrite !plus_IZR, !opp_IZR.
  rewrite !plus_IZR, !minus_IZR in Hqx, Hqy.
  apply Rabs_def2 in Ha, Hb, Hc, Hd.
  replace ((Rmin (vec_x v1) (vec_x v2) + Rmax (vec_x v1) (vec_x v2)) / 2 * Rabs zx)
    with ((a + b) / 2) by (subst a b; field).
  replace (- ((Rmin (vec_y v1) (vec_y v2) + Rmax (vec_y v1) (vec_y v2)) / 2) * Rabs zy)
    with (- ((c + d) / 2)) by (subst c d; field).
  split; apply Rabs_def1; lra.
Qed.

(** ** Zoom freeze, zoom to fit and zoom to page *)

(** While the zoom is frozen the guarded setters do nothing. *)
Lemma frozen_setters (fx fy : R) (v : RS_GraphicView) :
  zoomFrozen v = true ->
  centerOffsetY (centerOffsetX (setFactorY fy (setFactorX fx v))) = v.
Proof.
  intros Hz.
  assert (Hx : setFactorX fx v = v) by (unfold setFactorX; rewrite Hz; reflexivity).
  assert (Hy : setFactorY fy v = v) by (unfold setFactorY; rewrite Hz; reflexivity).
  assert (Hcx : centerOffsetX v = v)
    by (unfold centerOffsetX; destruct (container v); rewrite ?Hz; reflexivity).
  assert (Hcy : centerOffsetY v = v)
    by (unfold centerOffsetY; destruct (container v); rewrite ?Hz; reflexivity).
  rewrite Hx, Hy, Hcx, Hcy. reflexivity.
Qed.

(** What [zoomAuto] returns for a view with a container: the view with the
    recalculated container, or that view saved and given two factors. *)
Lemma zoomAuto_result (now now' : Z) (axis keep : bool)
    (v v' : RS_GraphicView) (c0 : RS_EntityContainer) :
  container v = Some c0 ->
  zoomAuto now now' axis keep v = Some v' ->
  v' = with_container (Some (calculateBorders c0)) v
  \/ exists (w : RS_GraphicView) (fx fy : R),
       saveView now now' (with_container (Some (calculateBorders c0)) v)
       = Some w
       /\ v' = centerOffsetY (centerOffsetX (setFactorY fy (setFactorX fx w))).
Proof.
  intros Hc. unfold zoomAuto. rewrite Hc.
  set (w0 := with_container (Some (calculateBorders c0)) v).
  destruct axis; simpl;
    repeat (destruct (decide (RS_TOLERANCE < _)); simpl);
    try (intros Heq; apply (inj Some) in Heq; left; symmetry; exact Heq);
    destruct keep; simpl;
    repeat (destruct (decide (_ \/ _)); simpl);
    try (intros Heq; apply (inj Some) in Heq; left; symmetry; exact Heq);
    (destruct (saveView now now' w0) as [w |] eqn:Hs; simpl; [| done]);
    intros Heq; apply (inj Some) in Heq; right; eauto.
Qed.

(** X11. While the zoom is frozen, [zoomAuto] leaves the factor and both
    offsets as they are, whatever the drawing. *)
Theorem zoomAuto_frozen (now now' : Z) (axis keep : bool)
    (v v' : RS_GraphicView) :
  zoomFrozen v = true ->
  zoomAuto now now' axis keep v = Some v' ->
  factor v' = factor v /\ offsetX v' = offsetX v /\ offsetY v' = offsetY v.
Proof.
  intros Hz Hrun. destruct (container v) as [c0 |] eqn:Hc.
  - destruct (zoomAuto_result _ _ _ _ _ _ _ Hc Hrun)
      as [-> | (w & fx & fy & Hs & ->)]; [auto |].
    destruct (saveView_viewport _ _ _ _ Hs) as (Hox & Hoy & Hf & Hzw).
    rewrite frozen_setters by (rewrite Hzw; exact Hz). auto.
  - unfold zoomAuto in Hrun. rewrite Hc in Hrun.
    apply (inj Some) in Hrun. subst v'. auto.
Qed.

(** The width fit and the height fit are what [zoomAuto] computes for a
    box wider and higher than the tolerance. *)
Lemma Rmax_extent (e : R) : 0 <= RS_TOLERANCE -> RS_TOLERANCE < e -> Rmax e 0 = e.
Proof. intros H0 He. apply Rmax_left. lra. Qed.

Lemma Rmax_extent_small (e : R) :
  0 <= RS_TOLERANCE -> e <= RS_TOLERANCE -> ~ RS_TOLERANCE < Rmax e 0.
Proof. intros H0 He. apply Rle_not_lt, Rmax_lub; lra. Qed.

(** X12. For a drawing that is wider than the tolerance and not higher
    than it (a horizontal line, say), [zoomAuto] takes the width fit for
    both factors, with or without [keepAspectRatio]; for one that is higher
    and not wider it takes the height fit. *)
Theorem zoomAuto_flat_drawing (now now' : Z) (axis keep : bool)
    (v v' : RS_GraphicView) (c0 : RS_EntityContainer) :
  0 <= RS_TOLERANCE ->
  container v = Some c0 ->
  zoomFrozen v = false ->
  zoomAuto now now' axis keep v = Some v' ->
  let c := calculateBorders c0 in
  (RS_TOLERANCE < vec_x (getSize c) -> vec_y (getSize c) <= RS_TOLERANCE ->
   RS_TOLERANCE <= widthFit v c <= RS_MAXDOUBLE ->
   factor v' = mkVector (widthFit v c) (widthFit v c))
  /\ (vec_x (getSize c) <= RS_TOLERANCE -> RS_TOLERANCE < vec_y (getSize c) ->
      RS_TOLERANCE <= heightFit v c <= RS_MAXDOUBLE ->
      factor v' = mkVector (heightFit v c) (heightFit v c)).
Proof.
  intros Htol Hc Hz Hrun c.
  unfold zoomAuto in Hrun. rewrite Hc in Hrun. fold c in Hrun.
  unfold widthFit, heightFit, getSize, vec_minus. simpl.
  set (w0 := with_container (Some c) v) in *.
  split; intros Hx Hy Hfit.
  - pose proof (Rmax_extent _ Htol Hx) as Hmx.
    pose proof (Rmax_extent_small _ Htol Hy) as Hmy.
    destruct axis; simpl in Hrun; rewrite ?Hmx in Hrun;
      rewrite (decide_True (P := RS_TOLERANCE < _)) in Hrun by exact Hx;
      rewrite (decide_False (P := RS_TOLERANCE < _)) in Hrun
        by (assumption || lra);
      simpl in Hrun;
      rewrite !(decide_False (P := _ \/ _)) in Hrun by lra;
      simpl in Hrun;
      (destruct (saveView now now' w0) as [w |] eqn:Hs; simpl in Hrun; [| done]);
      apply (inj Some) in Hrun; subst v';
      destruct (saveView_viewport _ _ _ _ Hs) as (_ & _ & _ & Hzw);
      rewrite centerOffsetY_factor, centerOffsetX_factor;
      rewrite setFactorXY_factor by (rewrite Hzw; exact Hz);
      rewrite !Rabs_right by lra; reflexivity.
  - pose proof (Rmax_extent _ Htol Hy) as Hmy.
    pose proof (Rmax_extent_small _ Htol Hx) as Hmx.
    destruct axis; simpl in Hrun; rewrite ?Hmy in Hrun;
      rewrite (decide_False (P := RS_TOLERANCE < _)) in Hrun
        by (assumption || lra);
      rewrite (decide_True (P := RS_TOLERANCE < _)) in Hrun by exact Hy;
      simpl in Hrun;
      rewrite !(decide_False (P := _ \/ _)) in Hrun by lra;
      simpl in Hrun;
      (destruct (saveView now now' w0) as [w |] eqn:Hs; simpl in Hrun; [| done]);
      apply (inj Some) in Hrun; subst v';
      destruct (saveView_viewport _ _ _ _ Hs) as (_ & _ & _ & Hzw);
      rewrite centerOffsetY_factor, centerOffsetX_factor;
      rewrite setFactorXY_factor by (rewrite Hzw; exact Hz);
      rewrite !Rabs_right by lra; reflexivity.
Qed.

(** X13. Without [keepAspectRatio], for a drawing wider and higher than
    the tolerance, [zoomAuto] fits each axis on its own: a fit between
    [RS_TOLERANCE] and [RS_MAXDOUBLE] becomes the factor of its axis, and
    a fit outside of that range is replaced by the factor 1 when the other
    one is inside. *)
Theorem zoomAuto_stretch (now now' : Z) (axis : bool)
    (v v' : RS_GraphicView) (c0 : RS_EntityContainer) :
  0 <= RS_TOLERANCE ->
  container v = Some c0 ->
  zoomFrozen v = false ->
  RS_TOLERANCE < vec_x (getSize (calculateBorders c0)) ->
  RS_TOLERANCE < vec_y (getSize (calculateBorders c0)) ->
  zoomAuto now now' axis false v = Some v' ->
  let wf := widthFit v (calculateBorders c0) in
  let hf := heightFit v (calculateBorders c0) in
  (RS_TOLERANCE <= wf <= RS_MAXDOUBLE -> RS_TOLERANCE <= hf <= RS_MAXDOUBLE ->
   factor v' = mkVector wf hf)
  /\ (RS_TOLERANCE <= wf <= RS_MAXDOUBLE ->
      hf < RS_TOLERANCE \/ RS_MAXDOUBLE < hf ->
      factor v' = mkVector wf 1)
  /\ (wf < RS_TOLERANCE \/ RS_MAXDOUBLE < wf ->
      RS_TOLERANCE <= hf <= RS_MAXDOUBLE ->
      factor v' = mkVector 1 hf).
Proof.
  intros Htol Hc Hz Hx Hy Hrun wf hf.
  unfold zoomAuto in Hrun. rewrite Hc in Hrun.
  set (c := calculateBorders c0) in *.
  set (w0 := with_container (Some c) v) in *.
  assert (Hrun' :
    (if decide (wf < RS_TOLERANCE \/ RS_MAXDOUBLE < wf)
     then if decide (hf < RS_TOLERANCE \/ RS_MAXDOUBLE < hf)
          then Some w0
          else w ← saveView now now' w0;
               Some (centerOffsetY (centerOffsetX (setFactorY hf (setFactorX 1 w))))
     else if decide (hf < RS_TOLERANCE \/ RS_MAXDOUBLE < hf)
          then w ← saveView now now' w0;
               Some (centerOffsetY (centerOffsetX (setFactorY 1 (setFactorX wf w))))
          else w ← saveView now now' w0;
               Some (centerOffsetY (centerOffsetX (setFactorY hf (setFactorX wf w)))))
    = Some v').
  { rewrite <- Hrun. subst wf hf. unfold widthFit, heightFit.
    unfold getSize, vec_minus in *. simpl in *.
    destruct axis; simpl; rewrite ?Rmax_extent by assumption;
      rewrite !(decide_True (P := RS_TOLERANCE < _)) by assumption; simpl;
      destruct (decide (_ \/ _)); simpl;
      destruct (decide (_ \/ _)); simpl; reflexivity. }
  clear Hrun.
  assert (Hset : forall (w : RS_GraphicView) (fx fy : R),
            saveView now now' w0 = Some w -> 0 <= fx -> 0 <= fy ->
            factor (centerOffsetY (centerOffsetX (setFactorY fy (setFactorX fx w))))
            = mkVector fx fy).
  { intros w fx fy Hs Hfx Hfy.
    destruct (saveView_viewport _ _ _ _ Hs) as (_ & _ & _ & Hzw).
    rewrite centerOffsetY_factor, centerOffsetX_factor.
    rewrite setFactorXY_factor by (rewrite Hzw; exact Hz).
    rewrite !Rabs_right by lra. reflexivity. }
  repeat split; intros Hw Hh.
  - rewrite !decide_False in Hrun' by lra.
    destruct (saveView now now' w0) as [w |] eqn:Hs; simpl in Hrun'; [| done].
    apply (inj Some) in Hrun'. subst v'. apply (Hset w); [reflexivity | lra | lra].
  - rewrite decide_False, decide_True in Hrun' by (assumption || lra).
    destruct (saveView now now' w0) as [w |] eqn:Hs; simpl in Hrun'; [| done].
    apply (inj Some) in Hrun'. subst v'. apply (Hset w); [reflexivity | lra | lra].
  - rewrite decide_True, decide_False in Hrun' by (assumption || lra).
    destruct (saveView now now' w0) as [w |] eqn:Hs; simpl in Hrun'; [| done].
    apply (inj Some) in Hrun'. subst v'. apply (Hset w); [reflexivity | lra | lra].
Qed.

(** X14. [centerOffsetX] and [centerOffsetY] centre the box of the
    container between the borders: when the zoom is not frozen and the two
    doubles that they convert with [(int)] truncate to an [int], the
    offsets stored are those conversions plus the left and the bottom
    border, the gap between the left border and the box and the gap
    between the box and the right border differ by less than two pixels,
    and so do the gaps at the bottom and at the top. *)
Theorem centerOffset_centres (v : RS_GraphicView) (c : RS_EntityContainer) :
  container v = Some c ->
  zoomFrozen v = false ->
  is_Some (int_cast (centerOffsetX_double v c)) ->
  is_Some (int_cast (centerOffsetY_double v c)) ->
  let v' := centerOffsetY (centerOffsetX v) in
  let left := toGuiX v' (vec_x (getMin c)) - IZR (borderLeft v) in
  let right := IZR (getWidth v - borderRight v) - toGuiX v' (vec_x (getMax c)) in
  let bottom := IZR (getHeight v - borderBottom v) - toGuiY v' (vec_y (getMin c)) in
  let top := toGuiY v' (vec_y (getMax c)) - IZR (borderTop v) in
  int_cast (centerOffsetX_double v c) = Some (offsetX v' - borderLeft v)%Z
  /\ int_cast (centerOffsetY_double v c) = Some (offsetY v' - borderBottom v)%Z
  /\ Rabs (left - right) < 2 /\ Rabs (bottom - top) < 2.
Proof.
  intros Hc Hz [zx Hzx] [zy Hzy].
  rewrite Hzx, Hzy.
  apply int_cast_Some in Hzx as [-> _], Hzy as [-> _].
  unfold centerOffsetX_double, centerOffsetY_double.
  unfold centerOffsetX, centerOffsetY. rewrite Hc, Hz. simpl.
  rewrite Hc, Hz. simpl.
  split; [f_equal; lia |]. split; [f_equal; lia |].
  unfold toGuiX, toGuiY. simpl.
  match goal with
  | |- context [Rtrunc ?a] =>
      match goal with
      | |- context [Rtrunc ?b] =>
          lazymatch a with b => fail | _ => idtac end;
          pose proof (Rtrunc_close a) as Ha; pose proof (Rtrunc_close b) as Hb;
          set (ta := Rtrunc a) in *; set (tb := Rtrunc b) in *
      end
  end.
  apply Rabs_def2 in Ha, Hb.
  rewrite !plus_IZR, !minus_IZR in *.
  destruct Ha as [Ha1 Ha2], Hb as [Hb1 Hb2].
  split; apply Rabs_def1.
  - lra.
  - lra.
  - lra.
  - lra.
Qed.

(** X15. [zoomPage] does nothing without a container, without a drawing
    and while the zoom is frozen; otherwise it leaves equal factors in x
    and y, which are 1 or at least [RS_TOLERANCE]. *)
Theorem zoomPage_factors `{P : PaperExternals} (v : RS_GraphicView) :
  (container v = None -> zoomPage v = v)
  /\ (forall c, container v = Some c -> graphicGridOn c = None -> zoomPage v = v)
  /\ (zoomFrozen v = true -> zoomPage v = v)
  /\ (forall c b, container v = Some c -> graphicGridOn c = Some b ->
      zoomFrozen v = false -> 0 <= RS_TOLERANCE ->
      vec_x (factor (zoomPage v)) = vec_y (factor (zoomPage v))
      /\ (vec_x (factor (zoomPage v)) = 1
          \/ RS_TOLERANCE <= vec_x (factor (zoomPage v)))).
Proof.
  unfold zoomPage. split; [| split; [| split]].
  - intros ->. reflexivity.
  - intros c -> ->. reflexivity.
  - intros Hz. destruct (container v) as [c |]; [| reflexivity].
    destruct (graphicGridOn c); [| reflexivity].
    destruct (decide (Rmin _ _ < RS_TOLERANCE)); apply frozen_setters, Hz.
  - intros c b Hc Hg Hz Htol. rewrite Hc, Hg.
    destruct (decide (Rmin _ _ < RS_TOLERANCE)) as [Hlt | Hge];
      rewrite centerOffsetY_factor, centerOffsetX_factor,
        setFactorXY_factor by assumption; cbn [vec_x vec_y] in *.
    + split; [reflexivity |]. left. apply Rabs_right. lra.
    + split; [reflexivity |]. right. rewrite Rabs_right by lra. lra.
Qed.

(** ** The history as a stack *)

(** Reading a slot other than the one just written. *)
Lemma slot_read_other (l : list SavedView) (i j : Z) (s : SavedView) :
  (0 <= i)%Z -> (0 <= j)%Z -> i <> j ->
  slot_read (<[Z.to_nat i := s]> l) j = slot_read l j.
Proof.
  intros Hi Hj Hne. unfold slot_read. rewrite !decide_True by exact Hj.
  apply list_lookup_insert_ne. lia.
Qed.

(** The list of the first [n + 1] integers, head and shifted tail. *)
Lemma fmap_seqZ_succ {A : Type} (f : Z -> A) (n : Z) :
  (0 <= n)%Z ->
  f <$> seqZ 0 (n + 1) = f 0%Z :: ((fun k => f (1 + k)%Z) <$> seqZ 0 n).
Proof.
  intros Hn. rewrite seqZ_cons by lia. simpl.
  replace (Z.pred (n + 1)) with n by lia.
  change (Z.succ 0) with (1 + 0)%Z.
  rewrite <- fmap_add_seqZ, <- list_fmap_compose. reflexivity.
Qed.

(** X16. A save that is recorded pushes the current view on the history
    and keeps the sixteen newest entries: the oldest one is dropped when
    the buffer is full. *)
Theorem saveView_pushes (now now' : Z) (v : RS_GraphicView) :
  history_inv v ->
  (500 <= now - previousViewTime v)%Z ->
  exists v' : RS_GraphicView,
    saveView now now' v = Some v'
    /\ history v' = take 16 (Some (currentView v) :: history v).
Proof.
  intros (Hlen & Hc & Hi) Hw.
  destruct (saveView_recorded now now' v) as (v' & Hs & Hidx & Hviews & _);
    [lia | rewrite Hlen; simpl; lia |].
  exists v'. split; [exact Hs |].
  assert (Hcount : savedViewCount v'
                   = if decide (savedViewCount v < 16)%Z
                     then (savedViewCount v + 1)%Z else savedViewCount v).
  { clear Hidx Hviews. unfold saveView, setGraphicModified in Hs.
    destruct (getGraphic v); simpl in Hs;
      (rewrite decide_False in Hs by lia);
      (rewrite slot_write_Some in Hs by (simpl; lia)); simpl in Hs;
      rewrite length_insert, Hlen in Hs;
      change (Z.of_nat 16) with 16%Z in Hs;
      destruct (decide (savedViewCount v < 16)%Z); simpl in Hs;
      destruct (decide _) in Hs; apply (inj Some) in Hs; subst v'; reflexivity. }
  rewrite Hlen in Hidx. change (Z.of_nat 16) with 16%Z in Hidx.
  unfold history, currentView.
  rewrite Hviews, length_insert, Hlen, Hidx, Hcount.
  change (Z.of_nat 16) with 16%Z.
  set (s := (offsetX v, offsetY v, factor v)).
  set (m := Z.min (savedViewCount v) 15).
  assert (Hhead : slot_read (<[Z.to_nat (savedViewIndex v) := s]> (savedViews v))
                    (((savedViewIndex v + 1) mod 16 - 1 - 0) mod 16)%Z = Some s).
  { replace (((savedViewIndex v + 1) mod 16 - 1 - 0) mod 16)%Z
      with (savedViewIndex v) by (Z.div_mod_to_equations; lia).
    apply slot_read_written. rewrite Hlen. simpl. lia. }
  assert (Htail : (fun k : Z =>
                     slot_read (<[Z.to_nat (savedViewIndex v) := s]> (savedViews v))
                       (((savedViewIndex v + 1) mod 16 - 1 - (1 + k)) mod 16)%Z)
                  <$> seqZ 0 m
                  = (fun k : Z =>
                       slot_read (savedViews v)
                         ((savedViewIndex v - 1 - k) mod 16)%Z)
                    <$> seqZ 0 m).
  { apply list_fmap_ext. intros j k Hk.
    apply lookup_seqZ in Hk as [-> Hj].
    assert (Hidx' : (((savedViewIndex v + 1) mod 16 - 1 - (1 + (0 + Z.of_nat j))) mod 16
                     = (savedViewIndex v - 1 - (0 + Z.of_nat j)) mod 16)%Z)
      by (Z.div_mod_to_equations; lia).
    rewrite Hidx'. apply slot_read_other; Z.div_mod_to_equations; lia. }
  assert (Hnew : (if decide (savedViewCount v < 16)%Z
                  then (savedViewCount v + 1)%Z else savedViewCount v)
                 = (m + 1)%Z)
    by (destruct (decide _); lia).
  rewrite Hnew, fmap_seqZ_succ by lia. rewrite Hhead, Htail.
  simpl. f_equal. rewrite <- fmap_take. f_equal.
  destruct (decide (savedViewCount v < 16)%Z) as [Hlt | Hge].
  - replace m with (savedViewCount v) by lia.
    rewrite take_ge; [reflexivity |]. rewrite length_seqZ. lia.
  - replace (savedViewCount v) with (15 + 1)%Z by lia.
    replace m with 15%Z by lia.
    rewrite seqZ_app by lia.
    rewrite take_app_length'; [reflexivity |]. rewrite length_seqZ. lia.
Qed.

(** X17. With a history that is not empty, [restoreView] pops it: the
    offsets and the factor it sets are those of the newest entry, and
    the other entries are left, in their order. *)
Theorem restoreView_pops (v : RS_GraphicView) :
  history_inv v ->
  savedViewCount v <> 0%Z ->
  exists v' : RS_GraphicView,
    restoreView v = Some v'
    /\ history v = Some (currentView v') :: history v'.
Proof.
  intros (Hlen & Hc & Hi) Hne.
  set (i' := ((savedViewIndex v + 16 - 1) mod 16)%Z).
  destruct (slot_read_Some (savedViews v) i') as [s Hs];
    [rewrite Hlen; subst i'; simpl; Z.div_mod_to_equations; lia |].
  assert (Hrun : exists v', restoreView v = Some v'
            /\ currentView v' = s
            /\ savedViews v' = savedViews v
            /\ savedViewIndex v' = i'
            /\ savedViewCount v' = (savedViewCount v - 1)%Z).
  { unfold restoreView. rewrite decide_False by exact Hne. simpl.
    destruct (decide _); simpl; rewrite Hlen;
      change (Z.of_nat 16) with 16%Z; fold i'; rewrite Hs; simpl;
      eexists; (split; [reflexivity |]); simpl;
      destruct s as [[ox oy] f]; repeat split. }
  destruct Hrun as (v' & Hr & Hcur & Hviews & Hidx & Hcount).
  exists v'. split; [exact Hr |].
  unfold history. rewrite Hviews, Hidx, Hcount, Hlen, Hcur.
  change (Z.of_nat 16) with 16%Z.
  replace (savedViewCount v) with ((savedViewCount v - 1) + 1)%Z at 1 by lia.
  rewrite fmap_seqZ_succ by lia. f_equal.
  - rewrite <- Hs. f_equal. subst i'. Z.div_mod_to_equations; lia.
  - apply list_fmap_ext. intros j k Hk. f_equal.
    subst i'. Z.div_mod_to_equations; lia.
Qed.

(** ** The signal of the history *)

(** The invariant of the signal, with the count not negative. *)
Lemma saveView_signal (now now' : Z) (v v' : RS_GraphicView) :
  signal_inv v -> (0 <= savedViewCount v)%Z ->
  saveView now now' v = Some v' ->
  signal_inv v' /\ (0 <= savedViewCount v')%Z.
Proof.
  unfold saveView. set (w := setGraphicModified v).
  assert (Hw : savedViewCount w = savedViewCount v
               /\ previous_zoom_state w = previous_zoom_state v)
    by (subst w; unfold setGraphicModified; destruct (getGraphic v); auto).
  destruct Hw as [Hwc Hwl]. clearbody w.
  unfold signal_inv. intros Hinv Hc. simpl.
  destruct (decide (now - 500 < previousViewTime w)%Z).
  - intros Heq. apply (inj Some) in Heq. subst v'. rewrite Hwc, Hwl. auto.
  - destruct (slot_write _ _ _); simpl; [| done].
    destruct (decide (savedViewCount w < _)%Z); simpl;
      destruct (decide (_ = 1%Z)); simpl;
      intros Heq; apply (inj Some) in Heq; subst v'; simpl;
      rewrite ?last_snoc, ?Hwc, ?Hwl in *;
      revert Hinv; destruct (last (previous_zoom_state v)); intros Hinv';
      intuition (lia || congruence).
Qed.

Lemma restoreView_signal (v v' : RS_GraphicView) :
  signal_inv v -> (0 <= savedViewCount v)%Z ->
  restoreView v = Some v' ->
  signal_inv v' /\ (0 <= savedViewCount v')%Z.
Proof.
  unfold signal_inv, restoreView. intros Hinv Hc.
  destruct (decide (savedViewCount v = 0)%Z);
    [intros Heq; apply (inj Some) in Heq; subst v'; auto |].
  simpl.
  destruct (decide (savedViewCount v - 1 = 0)%Z); simpl;
    (destruct (slot_read _ _); simpl; [| done]);
    intros Heq; apply (inj Some) in Heq; subst v'; simpl;
    rewrite ?last_snoc;
    revert Hinv; destruct (last (previous_zoom_state v)); intros Hinv';
    intuition (lia || congruence).
Qed.

(** X18. From a view with an empty history and no signal emitted yet,
    after every sequence of [saveView] and [restoreView] calls the last
    [previous_zoom_state] signal tells whether there is a view to go back
    to: it is [true] exactly when [savedViewCount] is not zero, and while
    no signal was emitted the count is zero. *)
Theorem previous_zoom_state_tracks_history (v0 v : RS_GraphicView)
    (cs : list ViewCall) :
  savedViewCount v0 = 0%Z ->
  previous_zoom_state v0 = [] ->
  runCalls cs v0 = Some v ->
  match last (previous_zoom_state v) with
  | None => savedViewCount v = 0%Z
  | Some b => b = true <-> savedViewCount v <> 0%Z
  end.
Proof.
  intros Hc Hlog Hrun.
  assert (Hinv : signal_inv v0 /\ (0 <= savedViewCount v0)%Z)
    by (unfold signal_inv; rewrite Hlog, Hc; split; [reflexivity | lia]).
  clear Hc Hlog.
  cut (signal_inv v /\ (0 <= savedViewCount v)%Z); [intros [Hs _]; exact Hs |].
  revert v0 Hinv Hrun. induction cs as [| c cs IH]; intros v0 Hinv Hrun.
  - apply (inj Some) in Hrun. subst v. exact Hinv.
  - simpl in Hrun. destruct (call c v0) as [v1 |] eqn:Hcall; simpl in Hrun; [| done].
    apply (IH v1); [| exact Hrun]. destruct Hinv as [Hs Hc].
    destruct c; simpl in Hcall;
      [eapply saveView_signal | eapply restoreView_signal]; eassumption.
Qed.

(** ** Zoom to fit puts the drawing inside the borders *)

(** [saveView] leaves the box of the container and the borders. *)
Lemma saveView_box (now now' : Z) (v v' : RS_GraphicView) (c : RS_EntityContainer) :
  container v = Some c ->
  saveView now now' v = Some v' ->
  (exists c', container v' = Some c'
              /\ getMin c' = getMin c /\ getMax c' = getMax c)
  /\ borderLeft v' = borderLeft v /\ borderRight v' = borderRight v
  /\ borderTop v' = borderTop v /\ borderBottom v' = borderBottom v.
Proof.
  intros Hc. unfold saveView, setGraphicModified, getGraphic. rewrite Hc.
  destruct (decide (rtti c = EntityGraphic)); simpl;
    (destruct (decide (now - 500 < _)%Z);
     [intros Heq; apply (inj Some) in Heq; subst v'; simpl; eauto 10 |]);
    (destruct (slot_write _ _ _); simpl; [| done]);
    repeat (destruct (decide _); simpl);
    intros Heq; apply (inj Some) in Heq; subst v'; simpl; eauto 10.
Qed.

(** [zoomAuto] with [keepAspectRatio] on a box wider and higher than the
    tolerance, the minimum of the fits being in range. *)
Lemma zoomAuto_keep_run (now now' : Z) (axis : bool)
    (v : RS_GraphicView) (c0 : RS_EntityContainer) :
  0 <= RS_TOLERANCE ->
  container v = Some c0 ->
  RS_TOLERANCE < vec_x (getSize (calculateBorders c0)) ->
  RS_TOLERANCE < vec_y (getSize (calculateBorders c0)) ->
  let c := calculateBorders c0 in
  let m := Rmin (widthFit v c) (heightFit v c) in
  RS_TOLERANCE <= m <= RS_MAXDOUBLE ->
  zoomAuto now now' axis true v
  = w ← saveView now now' (with_container (Some c) v);
    Some (centerOffsetY (centerOffsetX (setFactorY m (setFactorX m w)))).
Proof.
  intros Htol Hc Hx Hy c m Hm. unfold zoomAuto. rewrite Hc. fold c.
  subst m. unfold widthFit, heightFit in *. fold c in Hx, Hy.
  unfold getSize, vec_minus in *. simpl in *.
  destruct axis; simpl; rewrite ?Rmax_extent by assumption;
    rewrite !(decide_True (P := RS_TOLERANCE < _)) by assumption; simpl;
    rewrite !(decide_False (P := _ \/ _)) by lra; reflexivity.
Qed.

(** X19. A zoom to fit that keeps the aspect ratio sets both factors to
    the smaller fit [m]. When the two doubles that [centerOffsetX] and
    [centerOffsetY] then convert with [(int)] truncate to an [int], the
    offsets stored are those conversions plus the left and the bottom
    border, and the box of the drawing lies inside the borders of the view,
    to within one pixel on every side. *)
Theorem zoomAuto_fits (now now' : Z) (axis : bool)
    (v v' : RS_GraphicView) (c0 : RS_EntityContainer) :
  let c := calculateBorders c0 in
  let m := Rmin (widthFit v c) (heightFit v c) in
  let vm := with_factor (mkVector m m) v in
  0 <= RS_TOLERANCE ->
  container v = Some c0 ->
  zoomFrozen v = false ->
  RS_TOLERANCE < vec_x (getSize c) ->
  RS_TOLERANCE < vec_y (getSize c) ->
  RS_TOLERANCE <= m <= RS_MAXDOUBLE ->
  is_Some (int_cast (centerOffsetX_double vm c)) ->
  is_Some (int_cast (centerOffsetY_double vm c)) ->
  zoomAuto now now' axis true v = Some v' ->
  int_cast (centerOffsetX_double vm c) = Some (offsetX v' - borderLeft v)%Z
  /\ int_cast (centerOffsetY_double vm c) = Some (offsetY v' - borderBottom v)%Z
  /\ IZR (borderLeft v) - 1 < toGuiX v' (vec_x (getMin c))
  /\ toGuiX v' (vec_x (getMax c)) < IZR (getWidth v - borderRight v) + 1
  /\ IZR (borderTop v) - 1 < toGuiY v' (vec_y (getMax c))
  /\ toGuiY v' (vec_y (getMin c)) < IZR (getHeight v - borderBottom v) + 1.
Proof.
  intros c m vm Htol Hc Hz Hx Hy Hm [zx Hzx] [zy Hzy] Hrun.
  rewrite (zoomAuto_keep_run now now' axis v c0 Htol Hc Hx Hy Hm) in Hrun.
  fold c in Hrun. fold m in Hrun.
  set (w0 := with_container (Some c) v) in *.
  destruct (saveView now now' w0) as [w |] eqn:Hs; simpl in Hrun; [| done].
  apply (inj Some) in Hrun. subst v'.
  destruct (saveView_viewport _ _ _ _ Hs) as (_ & _ & _ & Hzw).
  destruct (saveView_size _ _ _ _ Hs) as [Hww Hwh].
  destruct (saveView_box now now' w0 w c eq_refl Hs)
    as ((c' & Hc' & Hmin & Hmax) & Hbl & Hbr & Hbt & Hbb).
  simpl in Hzw, Hww, Hwh, Hbl, Hbr, Hbt, Hbb.
  assert (Hmx : m * vec_x (getSize c) <= IZR (getWidth v - borderLeft v - borderRight v)).
  { assert (Hle : m <= widthFit v c) by apply Rmin_l.
    unfold widthFit in Hle.
    apply (Rmult_le_compat_r (vec_x (getSize c))) in Hle; [| lra].
    replace (IZR (getWidth v - borderLeft v - borderRight v) / vec_x (getSize c)
             * vec_x (getSize c))
      with (IZR (getWidth v - borderLeft v - borderRight v)) in Hle
      by (field; lra).
    exact Hle. }
  assert (Hmy : m * vec_y (getSize c) <= IZR (getHeight v - borderTop v - borderBottom v)).
  { assert (Hle : m <= heightFit v c) by apply Rmin_r.
    unfold heightFit in Hle.
    apply (Rmult_le_compat_r (vec_y (getSize c))) in Hle; [| lra].
    replace (IZR (getHeight v - borderTop v - borderBottom v) / vec_y (getSize c)
             * vec_y (getSize c))
      with (IZR (getHeight v - borderTop v - borderBottom v)) in Hle
      by (field; lra).
    exact Hle. }
  rewrite Hzx, Hzy.
  apply int_cast_Some in Hzx as [-> _], Hzy as [-> _].
  unfold centerOffsetX_double, centerOffsetY_double. subst vm. simpl.
  unfold setFactorX, setFactorY. rewrite Hzw, Hz. simpl. rewrite Hzw, Hz. simpl.
  unfold centerOffsetX. simpl. rewrite Hc', Hzw, Hz. simpl.
  unfold centerOffsetY. simpl. rewrite Hc', Hzw, Hz. simpl.
  unfold toGuiX, toGuiY. simpl.
  rewrite Hww, Hwh, Hbl, Hbr, Hbt, Hbb.
  rewrite Rabs_right by lra.
  unfold getSize, vec_minus in *. simpl in *. rewrite Hmin, Hmax.
  split; [f_equal; lia |]. split; [f_equal; lia |].
  match goal with
  | |- context [IZR (Rtrunc ?a + borderLeft v)] =>
      pose proof (Rtrunc_close a) as Ha; set (ta := Rtrunc a) in *
  end.
  match goal with
  | |- context [IZR (Rtrunc ?b + borderBottom v)] =>
      pose proof (Rtrunc_close b) as Hb; set (tb := Rtrunc b) in *
  end.
  apply Rabs_def2 in Ha, Hb. destruct Ha as [Ha1 Ha2], Hb as [Hb1 Hb2].
  rewrite !plus_IZR, !minus_IZR in *.
  repeat split; lra.
Qed.

(** ** Drawing, layer 1: pen, view and calls *)

Lemma fold_left_pen {A : Type} (f : RS_Painter -> A -> RS_Painter)
    (l : list A) (p : RS_Painter) :
  (forall q a, painterPen (f q a) = painterPen q) ->
  painterPen (fold_left f l p) = painterPen p.
Proof.
  intros Hf. revert p. induction l as [| a l IH]; intros p; simpl.
  - reflexivity.
  - rewrite IH. apply Hf.
Qed.

Lemma isometricLines_pen (n : nat) (cmx cmy : Z) (dx dy : R)
    (vp0 vp1 vp2 vp3 : RS_Vector) (p : RS_Painter) :
  painterPen (isometricLines n cmx cmy dx dy vp0 vp1 vp2 vp3 p) = painterPen p.
Proof.
  revert vp0 vp1 vp2 vp3 p.
  induction n as [| n IH]; intros vp0 vp1 vp2 vp3 p; simpl.
  - reflexivity.
  - destruct (decide (Z.of_nat n <= cmx)%Z), (decide (Z.of_nat n <= cmy)%Z);
      rewrite IH; reflexivity.
Qed.

(** [drawGrid] leaves its own pen on the painter. *)
Lemma drawGrid_pen (v : RS_GraphicView) (p p' : RS_Painter) :
  drawGrid v p = Some p' ->
  painterPen p' = mkPen (gridColor (m_colorData v)) Width00 SolidLine.
Proof.
  unfold drawGrid. destruct (grid v) as [g |]; [| done].
  step_bind. intros Hd. apply (inj Some) in Hd. subst p'.
  destruct (bool_decide (gridType v = 1%Z)).
  - rewrite fold_left_pen; [rewrite fold_left_pen; [reflexivity |] |];
      intros q a; apply fold_left_pen; reflexivity.
  - rewrite fold_left_pen; reflexivity.
Qed.

(** [drawMetaGrid] changes of the view the grid only. *)
Lemma drawMetaGrid_view (v v' : RS_GraphicView) (p p' : RS_Painter) :
  drawMetaGrid v p = Some (v', p') ->
  exists g0 : RS_Grid,
    grid v = Some g0 /\ v' = with_grid (Some (updatePointArray v g0)) v.
Proof.
  unfold drawMetaGrid. destruct (grid v) as [g0 |]; [| done].
  step_bind. intros Hd. exists g0. split; [reflexivity |].
  destruct (isIsometric _).
  - destruct (decide _).
    + apply (inj Some) in Hd. congruence.
    + destruct (getMetaX _ !! 0%nat); [| done]. step_bind.
      destruct (getMetaY _ !! 0%nat); [| done]. step_bind.
      apply (inj Some) in Hd. congruence.
  - apply (inj Some) in Hd. congruence.
Qed.

Lemma drawDraftSign_pen (v : RS_GraphicView) (p : RS_Painter) :
  painterPen (drawDraftSign v p) = painterPen p.
Proof.
  unfold drawDraftSign.
  generalize (mkRect 0 0 64 64). generalize (seqZ 1 4). intros l.
  revert p. induction l as [| i l IH]; intros p r; simpl.
  - reflexivity.
  - rewrite IH. reflexivity.
Qed.

(** The shape of a [drawLayer1] outside the print preview. *)
Lemma drawLayer1_result (dpi : R) (v v' : RS_GraphicView) (p p' : RS_Painter) :
  printPreview v = false ->
  drawLayer1 dpi v p = Some (v', p') ->
  let isHiDpi := bool_decide (96 < Rtrunc dpi)%Z in
  let pg := mkPainter (painterPen p) (issued p ++ [GetPen]) in
  let p0 := if isHiDpi
            then setPen (mkPen (penColor (painterPen p)) Width01
                           (penLineType (painterPen p))) pg
            else pg in
  exists q : RS_Painter,
    p' = (let q' := if draftMode v' then drawDraftSign v' q else q in
          if isHiDpi then setPen (painterPen p) q' else q')
    /\ ((bool_decide (is_Some (grid v)) && isGridOn v = true
         /\ exists p1, drawMetaGrid v p0 = Some (v', p1)
                       /\ drawGrid v' p1 = Some q)
        \/ (bool_decide (is_Some (grid v)) && isGridOn v = false
            /\ v' = v /\ q = p0)).
Proof.
  intros Hpp. unfold drawLayer1. rewrite Hpp.
  unfold getPen. cbv beta iota zeta.
  destruct (bool_decide (is_Some (grid v)) && isGridOn v) eqn:Hgrid.
  - destruct (drawMetaGrid v _) as [[v1 p1] |] eqn:Hm; [| done]. step_bind.
    destruct (drawGrid v1 p1) as [p2 |] eqn:Hd; [| done]. step_bind.
    intros Heq. apply (inj Some) in Heq. injection Heq as Hv Hp. subst v' p'.
    exists p2. split; [reflexivity |]. left. split; [reflexivity |].
    exists p1. split; [reflexivity | exact Hd].
  - step_bind. intros Heq. apply (inj Some) in Heq.
    injection Heq as Hv Hp. subst v' p'.
    eexists. split; [reflexivity |]. right. auto.
Qed.

(** X20. Outside the print preview, [drawLayer1] hands the painter back
    with the pen it found only on a screen of more than 96 dots per inch;
    on other screens a drawn grid leaves the pen of the grid points on the
    painter. *)
Theorem drawLayer1_pen (dpi : R) (v v' : RS_GraphicView) (p p' : RS_Painter) :
  printPreview v = false ->
  drawLayer1 dpi v p = Some (v', p') ->
  ((96 < Rtrunc dpi)%Z -> painterPen p' = painterPen p)
  /\ ((Rtrunc dpi <= 96)%Z -> is_Some (grid v) -> isGridOn v = true ->
      painterPen p' = mkPen (gridColor (m_colorData v)) Width00 SolidLine)
  /\ ((Rtrunc dpi <= 96)%Z -> grid v = None \/ isGridOn v = false ->
      painterPen p' = painterPen p).
Proof.
  intros Hpp Hrun.
  destruct (drawLayer1_result dpi v v' p p' Hpp Hrun) as (q & -> & Hq).
  split; [| split].
  - intros Hdpi. rewrite bool_decide_eq_true_2 by exact Hdpi. reflexivity.
  - intros Hdpi Hg Hon. rewrite bool_decide_eq_false_2 by lia.
    destruct Hq as [(_ & p1 & Hm & Hd) | (Hoff & _)].
    + apply drawGrid_pen in Hd.
      destruct (drawMetaGrid_view _ _ _ _ Hm) as (g0 & _ & ->).
      simpl in *. destruct (draftMode v); rewrite ?drawDraftSign_pen; exact Hd.
    + rewrite (bool_decide_eq_true_2 _ Hg), Hon in Hoff. discriminate.
  - intros Hdpi Hno. rewrite bool_decide_eq_false_2 by lia.
    destruct Hq as [(Hgrid & _) | (_ & -> & ->)].
    + apply andb_true_iff in Hgrid as [Hg Hon].
      apply bool_decide_eq_true_1 in Hg.
      destruct Hno as [Hnone | Hoff]; [rewrite Hnone in Hg; destruct Hg; done |].
      congruence.
    + rewrite bool_decide_eq_false_2 by lia.
      destruct (draftMode v); rewrite ?drawDraftSign_pen; reflexivity.
Qed.

(** X21. [drawLayer1] never moves the view: the factor, the offsets, the
    history and the container are those it was given; outside the print
    preview the only member it writes is the grid. *)
Theorem drawLayer1_keeps_viewport (dpi : R) (v v' : RS_GraphicView)
    (p p' : RS_Painter) :
  drawLayer1 dpi v p = Some (v', p') ->
  factor v' = factor v /\ offsetX v' = offsetX v /\ offsetY v' = offsetY v
  /\ savedViews v' = savedViews v /\ savedViewIndex v' = savedViewIndex v
  /\ savedViewCount v' = savedViewCount v /\ container v' = container v
  /\ zoomFrozen v' = zoomFrozen v.
Proof.
  intros Hrun. destruct (printPreview v) eqn:Hpp.
  - unfold drawLayer1 in Hrun. rewrite Hpp in Hrun.
    destruct (drawPaper v p); simpl in Hrun; [| done].
    apply (inj Some) in Hrun. injection Hrun as <- _. repeat split.
  - destruct (drawLayer1_result dpi v v' p p' Hpp Hrun) as (q & _ & Hq).
    destruct Hq as [(_ & p1 & Hm & _) | (_ & -> & _)]; [| repeat split].
    destruct (drawMetaGrid_view _ _ _ _ Hm) as (g0 & _ & ->). repeat split.
Qed.

(** X22. Outside the print preview and without a grid, or with the grid
    switched off, [drawLayer1] draws no line and no grid point and leaves
    the view as it is; unless the draft mode is on it draws nothing at
    all. *)
Theorem drawLayer1_grid_off (dpi : R) (v v' : RS_GraphicView)
    (p p' : RS_Painter) :
  printPreview v = false ->
  grid v = None \/ isGridOn v = false ->
  drawLayer1 dpi v p = Some (v', p') ->
  v' = v
  /\ exists calls : list PainterCall,
       issued p' = issued p ++ calls
       /\ Forall (fun c => isGridCall c = false) calls
       /\ (draftMode v = false ->
           Forall (fun c => isDrawingCall c = false) calls).
Proof.
  intros Hpp Hno Hrun.
  destruct (drawLayer1_result dpi v v' p p' Hpp Hrun) as (q & -> & Hq).
  destruct Hq as [(Hgrid & _) | (_ & -> & ->)].
  { apply andb_true_iff in Hgrid as [Hg Hon].
    apply bool_decide_eq_true_1 in Hg.
    destruct Hno as [Hnone | Hoff]; [rewrite Hnone in Hg; destruct Hg; done |].
    congruence. }
  split; [reflexivity |].
  set (P := fun c => isGridCall c = false
                     /\ (draftMode v = false -> isDrawingCall c = false)).
  cut (exists calls, issued
         (let q' := if draftMode v
                    then drawDraftSign v
                           (if bool_decide (96 < Rtrunc dpi)%Z
                            then setPen (mkPen (penColor (painterPen p)) Width01
                                           (penLineType (painterPen p)))
                                   (mkPainter (painterPen p) (issued p ++ [GetPen]))
                            else mkPainter (painterPen p) (issued p ++ [GetPen]))
                    else if bool_decide (96 < Rtrunc dpi)%Z
                         then setPen (mkPen (penColor (painterPen p)) Width01
                                        (penLineType (painterPen p)))
                                (mkPainter (painterPen p) (issued p ++ [GetPen]))
                         else mkPainter (painterPen p) (issued p ++ [GetPen]) in
          if bool_decide (96 < Rtrunc dpi)%Z then setPen (painterPen p) q' else q')
         = issued p ++ calls /\ Forall P calls).
  { intros (calls & Hc & Hall). exists calls. split; [exact Hc |].
    split; [| intros Hd]; eapply Forall_impl; try exact Hall;
      intros c [Hg Hdr]; auto. }
  assert (Hset : forall pen, P (SetPen pen)) by (intros pen; split; reflexivity).
  assert (Hget : P GetPen) by (split; reflexivity).
  cbv zeta.
  destruct (bool_decide (96 < Rtrunc dpi)%Z), (draftMode v) eqn:Hdraft.
  - eapply calls_trans; [| eapply calls_one; [reflexivity | apply Hset]].
    eapply calls_trans; [| apply drawDraftSign_calls; intros r s; split;
                           [reflexivity | discriminate]].
    eapply calls_trans; [| eapply calls_one; [reflexivity | apply Hset]].
    eapply calls_one; [reflexivity | exact Hget].
  - eapply calls_trans; [| eapply calls_one; [reflexivity | apply Hset]].
    eapply calls_trans; [| eapply calls_one; [reflexivity | apply Hset]].
    eapply calls_one; [reflexivity | exact Hget].
  - eapply calls_trans; [| apply drawDraftSign_calls; intros r s; split;
                           [reflexivity | discriminate]].
    eapply calls_one; [reflexivity | exact Hget].
  - eapply calls_one; [reflexivity | exact Hget].
Qed.

(** [zoomAuto] runs through when the history index is inside the buffer. *)
Lemma zoomAuto_is_Some (now now' : Z) (axis keep : bool) (v : RS_GraphicView) :
  (0 <= savedViewIndex v < Z.of_nat (length (savedViews v)))%Z ->
  is_Some (zoomAuto now now' axis keep v).
Proof.
  intros Hi. unfold zoomAuto. destruct (container v) as [c0 |]; [| eauto].
  set (w0 := with_container (Some (calculateBorders c0)) v).
  destruct (saveView_is_Some now now' w0 Hi) as [w Hw].
  destruct axis; simpl;
    repeat (destruct (decide (RS_TOLERANCE < _)); simpl); eauto;
    destruct keep; simpl;
    repeat (destruct (decide (_ \/ _)); simpl); eauto;
    rewrite Hw; simpl; eauto.
Qed.

End MoreProperties.

(** ** The further model on sample values *)

(** [(int)] of a double that holds an integer in the range of [int]. *)
Lemma int_cast_IZR (z : Z) :
  (INT_MIN <= z <= INT_MAX)%Z -> int_cast (IZR z) = Some z.
Proof.
  intros Hz. unfold int_cast. rewrite Rtrunc_IZR.
  rewrite decide_True by exact Hz. reflexivity.
Qed.

(** The double of the literal [1.0e-6] itself is not refused. *)
Example zoomOutX_at_literal :
  zoomOutX lit_1e_6 (with_offsetX 0 sampleView)
  = Some (with_factor (mkVector (2 / lit_1e_6) 2) (with_offsetX 0 sampleView)).
Proof.
  unfold zoomOutX. rewrite decide_False by lra. simpl.
  replace (0 / lit_1e_6) with (IZR 0) by (unfold lit_1e_6; lra).
  rewrite int_cast_IZR by (vm_compute; split; discriminate). reflexivity.
Qed.

(** Conversions that leave the range of [int]: [(int) 3e9]. *)
Example zoomInX_out_of_range :
  zoomInX 3 (with_offsetX 1000000405 sampleView) = None.
Proof.
  unfold zoomInX. simpl.
  change (1000000405 - 810 ÷ 2)%Z with 1000000000%Z.
  replace (1000000000 * 3) with (IZR 3000000000) by lra.
  unfold int_cast. rewrite Rtrunc_IZR.
  rewrite decide_False by (vm_compute; intros [_ Hle]; apply Hle; reflexivity).
  reflexivity.
Qed.

Example zoomOutX_out_of_range :
  zoomOutX lit_1e_6 (with_offsetX 3000 sampleView) = None.
Proof.
  unfold zoomOutX. rewrite decide_False by lra. simpl.
  unfold int_cast. cbv zeta.
  pose proof (Rtrunc_close (3000 / lit_1e_6)) as Ht.
  apply Rabs_def2 in Ht as [_ Ht].
  assert (Hbig : 3000000000 <= 3000 / lit_1e_6).
  { unfold lit_1e_6. apply Rmult_le_reg_r with (r := 4722366482869645 / 4722366482869645213696);
      [lra |]. field_simplify; lra. }
  rewrite decide_False; [reflexivity |].
  intros [_ Hle]. apply IZR_le in Hle. unfold INT_MAX in Hle. lra.
Qed.

Example zoomWindow_sample :
  exists v' : RS_GraphicView,
    zoomWindow 1000 1001 (mkVector 0 0) (mkVector 81 61) true sampleView
    = Some v'
    /\ factor v' = mkVector 10 10 /\ offsetX v' = 0%Z /\ offsetY v' = 0%Z
    /\ savedViewCount v' = 1%Z.
Proof.
  unfold zoomWindow. simpl.
  rewrite !(decide_False (P := _ < 0)) by lra.
  rewrite !(decide_True (P := lit_1e_6 < _)) by (unfold lit_1e_6; lra).
  rewrite (decide_False (P := _ / _ < _ / _)) by lra.
  assert (Hz : Rabs (IZR (610 - 2 * 0) / 610 * (610 / (61 - 0))) = 10).
  { rewrite minus_IZR, mult_IZR. rewrite Rabs_right; lra. }
  rewrite Hz.
  replace (0 * 10) with (IZR 0) by lra.
  replace (61 * 10) with (IZR 610) by lra.
  replace (81 * 10) with (IZR 810) by lra.
  eexists. split.
  - repeat (rewrite int_cast_IZR by (vm_compute; split; discriminate); step_bind).
    vm_compute. reflexivity.
  - vm_compute. repeat split.
Qed.

(** ** The further theorems at sample values *)




Lemma zoomWindow_factors_sample :
  exists v' : RS_GraphicView,
    zoomWindow 1000 1001 (mkVector 0 0) (mkVector 81 61) true sampleView
    = Some v'
    /\ v' <> sampleView
    /\ 0 <= vec_x (factor v') /\ 0 <= vec_y (factor v')
    /\ vec_x (factor v') = vec_y (factor v').
Proof.
  destruct zoomWindow_sample as (v' & Hz & Hf & _).
  assert (Hne : v' <> sampleView).
  { intros ->. simpl in Hf. injection Hf as Hf _. lra. }
  exists v'. split; [exact Hz | split; [exact Hne |]].
  destruct (zoomWindow_factors _ _ _ _ _ _ _ Hz Hne) as (H1 & H2 & H3).
  split; [exact H1 | split; [exact H2 |]].
  apply H3; [reflexivity | discriminate | discriminate].
Defined.

Lemma zoomWindow_centres_sample :
  exists v' : RS_GraphicView,
    zoomWindow 1000 1001 (mkVector 0 0) (mkVector 81 61) true sampleView
    = Some v'
    /\ v' <> sampleView
    /\ Rabs (toGuiX v' ((0 + 81) / 2) - IZR 810 / 2) < 3 / 2
    /\ Rabs (toGuiY v' ((0 + 61) / 2) - IZR 610 / 2) < 3 / 2.
Proof.
  destruct zoomWindow_sample as (v' & Hz & Hf & _).
  assert (Hne : v' <> sampleView).
  { intros ->. simpl in Hf. injection Hf as Hf _. lra. }
  exists v'. split; [exact Hz | split; [exact Hne |]].
  exact (zoomWindow_centres _ _ _ _ _ _ _ Hz Hne).
Defined.

Lemma zoomAuto_frozen_sample :
  exists v' : RS_GraphicView,
    zoomAuto (H := sampleExternals) 1000 1001 false true sampleFrozenView
    = Some v'
    /\ factor v' = mkVector 2 2 /\ offsetX v' = 10%Z /\ offsetY v' = 20%Z.
Proof.
  destruct (zoomAuto_is_Some (E := sampleExternals) 1000 1001 false true
              sampleFrozenView) as [v' Hv'];
    [vm_compute; split; [discriminate | reflexivity] |].
  exists v'. split; [exact Hv' |].
  exact (zoomAuto_frozen (E := sampleExternals) 1000 1001 false true
           sampleFrozenView v' eq_refl Hv').
Defined.

Lemma zoomAuto_flat_drawing_sample :
  exists v' : RS_GraphicView,
    zoomAuto (H := sampleExternals) 1000 1001 false false sampleLineView
    = Some v'
    /\ factor v' = mkVector (widthFit sampleLineView sampleLine)
                            (widthFit sampleLineView sampleLine).
Proof.
  destruct (zoomAuto_is_Some (E := sampleExternals) 1000 1001 false false
              sampleLineView) as [v' Hv'];
    [vm_compute; split; [discriminate | reflexivity] |].
  exists v'. split; [exact Hv' |].
  assert (Htol : 0 <= RS_TOLERANCE (Externals := sampleExternals))
    by (simpl; lra).
  destruct (zoomAuto_flat_drawing (E := sampleExternals) 1000 1001 false false
              sampleLineView v' sampleLine Htol eq_refl eq_refl Hv')
    as [Hflat _].
  apply Hflat; unfold widthFit; simpl; rewrite ?minus_IZR; lra.
Defined.

Lemma zoomAuto_stretch_sample :
  exists v' : RS_GraphicView,
    zoomAuto (H := sampleExternals) 1000 1001 false false sampleView = Some v'
    /\ factor v' = mkVector (widthFit sampleView sampleDrawing)
                            (heightFit sampleView sampleDrawing).
Proof.
  destruct (zoomAuto_is_Some (E := sampleExternals) 1000 1001 false false
              sampleView) as [v' Hv'];
    [vm_compute; split; [discriminate | reflexivity] |].
  exists v'. split; [exact Hv' |].
  assert (Htol : 0 <= RS_TOLERANCE (Externals := sampleExternals))
    by (simpl; lra).
  assert (Hx : RS_TOLERANCE (Externals := sampleExternals)
               < vec_x (getSize (calculateBorders (Externals := sampleExternals)
                                   sampleDrawing)))
    by (simpl; lra).
  assert (Hy : RS_TOLERANCE (Externals := sampleExternals)
               < vec_y (getSize (calculateBorders (Externals := sampleExternals)
                                   sampleDrawing)))
    by (simpl; lra).
  destruct (zoomAuto_stretch (E := sampleExternals) 1000 1001 false
              sampleView v' sampleDrawing Htol eq_refl eq_refl Hx Hy Hv')
    as [Hboth _].
  apply Hboth; unfold widthFit, heightFit; simpl; rewrite ?minus_IZR; lra.
Defined.

Lemma centerOffset_centres_sample :
  let v' := centerOffsetY (centerOffsetX sampleView) in
  is_Some (int_cast (centerOffsetX_double sampleView sampleDrawing))
  /\ is_Some (int_cast (centerOffsetY_double sampleView sampleDrawing))
  /\ int_cast (centerOffsetX_double sampleView sampleDrawing)
     = Some (offsetX v' - 5)%Z
  /\ int_cast (centerOffsetY_double sampleView sampleDrawing)
     = Some (offsetY v' - 5)%Z
  /\ Rabs (toGuiX v' 0 - IZR 5 - (IZR (810 - 5) - toGuiX v' 100)) < 2
  /\ Rabs (IZR (610 - 5) - toGuiY v' 0 - (toGuiY v' 50 - IZR 5)) < 2.
Proof.
  assert (Hx : is_Some (int_cast (centerOffsetX_double sampleView sampleDrawing))).
  { replace (centerOffsetX_double sampleView sampleDrawing) with (IZR 300)
      by (unfold centerOffsetX_double; simpl; rewrite !minus_IZR; lra).
    rewrite int_cast_IZR by (vm_compute; split; discriminate). eauto. }
  assert (Hy : is_Some (int_cast (centerOffsetY_double sampleView sampleDrawing))).
  { replace (centerOffsetY_double sampleView sampleDrawing) with (IZR 250)
      by (unfold centerOffsetY_double; simpl; rewrite !minus_IZR; lra).
    rewrite int_cast_IZR by (vm_compute; split; discriminate). eauto. }
  intros v'. split; [exact Hx |]. split; [exact Hy |].
  exact (centerOffset_centres sampleView sampleDrawing eq_refl eq_refl Hx Hy).
Defined.

Lemma zoomPage_factors_sample :
  zoomPage (H := sampleExternals) (H0 := samplePaper) sampleFrozenView
  = sampleFrozenView
  /\ vec_x (factor (zoomPage (H := sampleExternals) (H0 := samplePaper) sampleView))
     = vec_y (factor (zoomPage (H := sampleExternals) (H0 := samplePaper) sampleView)).
Proof.
  destruct (zoomPage_factors (E := sampleExternals) (P := samplePaper)
              sampleFrozenView) as (_ & _ & Hfrozen & _).
  destruct (zoomPage_factors (E := sampleExternals) (P := samplePaper)
              sampleView) as (_ & _ & _ & Hfit).
  split; [apply Hfrozen; reflexivity |].
  destruct (Hfit sampleDrawing true eq_refl eq_refl eq_refl) as [Heq _];
    [simpl; lra | exact Heq].
Defined.

Lemma saveView_pushes_sample :
  history_inv sampleView
  /\ exists v' : RS_GraphicView,
       saveView 1000 1001 sampleView = Some v'
       /\ history v' = take 16 (Some (currentView sampleView) :: history sampleView).
Proof.
  assert (Hinv : history_inv sampleView)
    by (vm_compute; repeat split; discriminate).
  split; [exact Hinv |].
  apply (saveView_pushes 1000 1001 sampleView Hinv).
  vm_compute. discriminate.
Defined.

Lemma restoreView_pops_sample :
  history_inv sampleHistoryView
  /\ exists v' : RS_GraphicView,
       restoreView sampleHistoryView = Some v'
       /\ history sampleHistoryView = Some (currentView v') :: history v'.
Proof.
  assert (Hinv : history_inv sampleHistoryView)
    by (vm_compute; repeat split; discriminate).
  split; [exact Hinv |].
  apply (restoreView_pops sampleHistoryView Hinv). discriminate.
Defined.

Lemma previous_zoom_state_tracks_history_sample :
  exists v : RS_GraphicView,
    runCalls [CallSaveView 1000 1001; CallSaveView 2000 2001; CallRestoreView]
      sampleView = Some v
    /\ match last (previous_zoom_state v) with
       | None => savedViewCount v = 0%Z
       | Some b => b = true <-> savedViewCount v <> 0%Z
       end.
Proof.
  assert (Hrun : exists v,
            runCalls [CallSaveView 1000 1001; CallSaveView 2000 2001;
                      CallRestoreView] sampleView = Some v)
    by (eexists; vm_compute; reflexivity).
  destruct Hrun as [v Hrun]. exists v. split; [exact Hrun |].
  exact (previous_zoom_state_tracks_history sampleView v _ eq_refl eq_refl Hrun).
Defined.

Lemma zoomAuto_fits_sample :
  exists v' : RS_GraphicView,
    zoomAuto (H := sampleExternals) 1000 1001 false true sampleView = Some v'
    /\ is_Some (int_cast (centerOffsetX_double
                            (with_factor (mkVector 8 8) sampleView)
                            sampleDrawing))
    /\ is_Some (int_cast (centerOffsetY_double
                            (with_factor (mkVector 8 8) sampleView)
                            sampleDrawing))
    /\ IZR 5 - 1 < toGuiX v' 0
    /\ toGuiX v' 100 < IZR (810 - 5) + 1
    /\ IZR 5 - 1 < toGuiY v' 50
    /\ toGuiY v' 0 < IZR (610 - 5) + 1.
Proof.
  destruct (zoomAuto_is_Some (E := sampleExternals) 1000 1001 false true
              sampleView) as [v' Hv'];
    [vm_compute; split; [discriminate | reflexivity] |].
  exists v'. split; [exact Hv' |].
  assert (Htol : 0 <= RS_TOLERANCE (Externals := sampleExternals))
    by (simpl; lra).
  assert (Hx : RS_TOLERANCE (Externals := sampleExternals)
               < vec_x (getSize (calculateBorders (Externals := sampleExternals)
                                   sampleDrawing)))
    by (simpl; lra).
  assert (Hy : RS_TOLERANCE (Externals := sampleExternals)
               < vec_y (getSize (calculateBorders (Externals := sampleExternals)
                                   sampleDrawing)))
    by (simpl; lra).
  assert (Hmin : Rmin (widthFit sampleView
                         (calculateBorders (Externals := sampleExternals)
                            sampleDrawing))
                      (heightFit sampleView
                         (calculateBorders (Externals := sampleExternals)
                            sampleDrawing)) = 8).
  { unfold widthFit, heightFit. simpl.
    rewrite !minus_IZR, Rmin_left by lra. lra. }
  assert (Hm : RS_TOLERANCE (Externals := sampleExternals)
               <= Rmin (widthFit sampleView
                          (calculateBorders (Externals := sampleExternals)
                             sampleDrawing))
                       (heightFit sampleView
                          (calculateBorders (Externals := sampleExternals)
                             sampleDrawing))
               <= RS_MAXDOUBLE (Externals := sampleExternals))
    by (rewrite Hmin; simpl; lra).
  assert (Hcx : is_Some (int_cast (centerOffsetX_double
                                     (with_factor (mkVector 8 8) sampleView)
                                     sampleDrawing))).
  { replace (centerOffsetX_double _ sampleDrawing) with (IZR 0)
      by (unfold centerOffsetX_double; simpl; rewrite !minus_IZR; lra).
    rewrite int_cast_IZR by (vm_compute; split; discriminate). eauto. }
  assert (Hcy : is_Some (int_cast (centerOffsetY_double
                                     (with_factor (mkVector 8 8) sampleView)
                                     sampleDrawing))).
  { replace (centerOffsetY_double _ sampleDrawing) with (IZR 100)
      by (unfold centerOffsetY_double; simpl; rewrite !minus_IZR; lra).
    rewrite int_cast_IZR by (vm_compute; split; discriminate). eauto. }
  split; [exact Hcx |]. split; [exact Hcy |].
  pose proof (zoomAuto_fits (E := sampleExternals) 1000 1001 false sampleView v'
                sampleDrawing Htol eq_refl eq_refl Hx Hy Hm) as Hfit.
  cbv zeta in Hfit. rewrite Hmin in Hfit.
  destruct (Hfit Hcx Hcy Hv') as (_ & _ & Hbox). exact Hbox.
Defined.

Lemma drawLayer1_pen_sample :
  exists (v' : RS_GraphicView) (p' : RS_Painter),
    drawLayer1 (H := sampleExternals) 96 sampleView samplePainter = Some (v', p')
    /\ painterPen p' = mkPen (RGB 128 128 128) Width00 SolidLine.
Proof.
  destruct drawLayer1_sample as (v' & p' & Hrun & _).
  exists v', p'. split; [exact Hrun |].
  destruct (drawLayer1_pen (E := sampleExternals) 96 sampleView v'
              samplePainter p' eq_refl Hrun) as (_ & Hgrid & _).
  apply Hgrid.
  - rewrite Rtrunc_IZR. discriminate.
  - exists sampleGrid. reflexivity.
  - reflexivity.
Defined.

Lemma drawLayer1_keeps_viewport_sample :
  exists (v' : RS_GraphicView) (p' : RS_Painter),
    drawLayer1 (H := sampleExternals) 96 sampleView samplePainter = Some (v', p')
    /\ factor v' = factor sampleView
    /\ offsetX v' = offsetX sampleView /\ offsetY v' = offsetY sampleView
    /\ savedViews v' = savedViews sampleView
    /\ savedViewIndex v' = savedViewIndex sampleView
    /\ savedViewCount v' = savedViewCount sampleView
    /\ container v' = container sampleView
    /\ zoomFrozen v' = zoomFrozen sampleView.
Proof.
  destruct drawLayer1_sample as (v' & p' & Hrun & _).
  exists v', p'. split; [exact Hrun |].
  exact (drawLayer1_keeps_viewport (E := sampleExternals) 96 sampleView v'
           samplePainter p' Hrun).
Defined.

Lemma drawLayer1_grid_off_sample :
  exists (v' : RS_GraphicView) (p' : RS_Painter),
    drawLayer1 (H := sampleExternals) 96 sampleNoGridView samplePainter
    = Some (v', p')
    /\ v' = sampleNoGridView
    /\ exists calls : list PainterCall,
         issued p' = issued samplePainter ++ calls
         /\ Forall (fun c => isGridCall c = false) calls
         /\ (draftMode sampleNoGridView = false ->
             Forall (fun c => isDrawingCall c = false) calls).
Proof.
  assert (Hrun : exists v' p',
            drawLayer1 (H := sampleExternals) 96 sampleNoGridView samplePainter
            = Some (v', p')).
  { unfold drawLayer1. change (printPreview sampleNoGridView) with false.
    cbv iota. rewrite Rtrunc_IZR. eexists _, _. reflexivity. }
  destruct Hrun as (v' & p' & Hrun).
  exists v', p'. split; [exact Hrun |].
  apply (drawLayer1_grid_off (E := sampleExternals) 96 sampleNoGridView v'
           samplePainter p' eq_refl); [left; reflexivity | exact Hrun].
Defined.
